(** * es-shopping: the shopping-cart decider, its projections and the
      JSON file event store, embedded shallowly and verified.

    Source files covered:
    - [shoppingCart/types/index.ts], [events/index.ts], [commands/index.ts]
    - [shoppingCart/domain/shoppingCart.ts]        (module [Decider])
    - [shoppingCart/projections/shoppingCartSummary.ts]   (module [Summary])
    - [shoppingCart/projections/customerShoppingSummary.ts] (module [Customer])
    - [eventStore/jsonFileEventStore.ts]   (modules [FileStore], [Listing])
    - [shoppingCart/api/index.ts]                  (module [Api])
    - [index.ts], the product catalogue            (module [Index])

    Numbers: a JavaScript [number] holding a price or an amount is the
    binary64 floating-point number it is ([float], with the IEEE 754
    addition and multiplication of the language); a [number] holding a
    quantity or a count is an integer ([Z]), turned into the nearest binary64
    number where it meets an amount.
    A [Date] is its epoch time in milliseconds ([Z]).  A thrown exception is
    the [Throw] case of [Result]. *)

From Stdlib Require Import ZArith PrimFloat SpecFloat FloatOps Lia Sorted.
From stdpp Require Import base option numbers strings list.

Local Open Scope Z_scope.

(* Decimal literals such as 29.99 denote, as in the source, the nearest
   binary64 number. *)
#[local] Set Warnings "-inexact-float".

(** ** JavaScript runtime notions used by the sources *)

Module Js.

Inductive Error : Type :=
| IllegalStateError (message : string)   (* emmett's IllegalStateError *)
| GenericError (message : string)        (* new Error(...) *)
| TypeError (message : string).          (* property read on undefined *)

Inductive Result (A : Type) : Type :=
| Ok (value : A)
| Throw (error : Error).
Arguments Ok {A} value.
Arguments Throw {A} error.

Definition bind {A B} (r : Result A) (k : A -> Result B) : Result B :=
  match r with
  | Ok a => k a
  | Throw e => Throw e
  end.

Definition isIllegalState {A} (r : Result A) : Prop :=
  exists message, r = Throw (IllegalStateError message).

(** The binary64 number of an integer quantity: the integer itself up to
    2^53, the nearest binary64 number beyond. *)
Definition numberOfZ (z : Z) : float :=
  SF2Prim (binary_normalize prec emax z 0 false).
Arguments numberOfZ : simpl never.

(** [Array.prototype.findIndex]: the first index whose element satisfies
    the predicate, [-1] when there is none. *)
Definition findIndex {A} (P : A -> Prop) `{forall x, Decision (P x)}
    (l : list A) : Z :=
  match list_find P l with
  | Some (i, _) => Z.of_nat i
  | None => -1
  end.

(** [Array.prototype.find]: the first element satisfying the predicate,
    [undefined] ([None]) when there is none. *)
Definition find {A} (P : A -> Prop) `{forall x, Decision (P x)}
    (l : list A) : option A :=
  snd <$> list_find P l.

(** [arr.filter((x, index) => keep x index)]. *)
Fixpoint filterFrom {A} (keep : A -> nat -> bool) (start : nat)
    (l : list A) : list A :=
  match l with
  | [] => []
  | x :: rest =>
      if keep x start then x :: filterFrom keep (S start) rest
      else filterFrom keep (S start) rest
  end.

Definition filterIndexed {A} (keep : A -> nat -> bool) (l : list A) : list A :=
  filterFrom keep 0%nat l.

(** [arr[i]] followed by a property read: reading a property of
    [undefined] throws a TypeError. *)
Definition at_ {A} (l : list A) (i : Z) : Result A :=
  if i <? 0 then Throw (TypeError "Cannot read properties of undefined")
  else match l !! Z.to_nat i with
       | Some x => Ok x
       | None => Throw (TypeError "Cannot read properties of undefined")
       end.

(** [arr[i] = x] on a copy, for an index inside the array. *)
Definition setAt {A} (l : list A) (i : Z) (x : A) : list A :=
  <[Z.to_nat i := x]> l.

End Js.

Import Js.

Notation "'try!' x := r 'in' k" := (Js.bind r (fun x => k))
  (at level 10, x name, r at level 100, k at level 200).

(** ** types/index.ts *)

Definition Date := Z.

Record ProductItem : Type := mkProductItem {
  pi_productId : string;
  pi_productName : string;
  pi_quantity : Z;
}.

(** [PricedProductItem = ProductItem & { unitPrice }]. *)
Record PricedProductItem : Type := mkPriced {
  productId : string;
  productName : string;
  quantity : Z;
  unitPrice : float;
}.

Inductive ShoppingCartStatus : Type := Opened | Confirmed | Cancelled.

#[global] Instance ShoppingCartStatus_eq_dec : EqDecision ShoppingCartStatus.
Proof. solve_decision. Defined.

Record ShoppingCart : Type := mkCart {
  id : string;
  customerId : string;
  status : ShoppingCartStatus;
  items : list PricedProductItem;
  openedAt : Date;
  confirmedAt : option Date;
  cancelledAt : option Date;
}.

Record ShoppingCartSummary : Type := mkSummary {
  s_id : string;
  s_customerId : string;
  s_status : ShoppingCartStatus;
  s_items : list PricedProductItem;
  totalAmount : float;
  totalItemsCount : Z;
  s_openedAt : Date;
  s_confirmedAt : option Date;
  s_cancelledAt : option Date;
}.

(** ** events/index.ts

    The five event variants with their [data] payloads.  [UnrecognizedEvent]
    stands for a stored event whose [type] tag is none of the five (the
    [default] arm of every [switch (type)]). *)

Inductive ShoppingCartEvent : Type :=
| ShoppingCartOpened (shoppingCartId customerId : string) (openedAt : Date)
| ProductItemAddedToShoppingCart
    (shoppingCartId : string) (productItem : PricedProductItem) (addedAt : Date)
| ProductItemRemovedFromShoppingCart
    (shoppingCartId : string) (productItem : ProductItem) (removedAt : Date)
| ShoppingCartConfirmed (shoppingCartId : string) (confirmedAt : Date)
| ShoppingCartCancelled (shoppingCartId : string) (cancelledAt : Date)
| UnrecognizedEvent (type : string).

(** ** commands/index.ts

    [UnknownCommand] stands for a command object whose [type] is none of the
    five ([decide] takes [{ type: string; data: any }]). *)

Inductive ShoppingCartCommand : Type :=
| OpenShoppingCart (shoppingCartId customerId : string)
| AddProductItemToShoppingCart (shoppingCartId : string) (productItem : PricedProductItem)
| RemoveProductItemFromShoppingCart (shoppingCartId : string) (productItem : ProductItem)
| ConfirmShoppingCart (shoppingCartId : string)
| CancelShoppingCart (shoppingCartId : string)
| UnknownCommand (type : string).

(** The second argument of the handlers: [metadata?: { now?: Date }]. *)
Record Metadata : Type := mkMetadata { now : option Date }.

(** ** domain/shoppingCart.ts *)

Module Decider.

Section Clock.
(** What [new Date()] evaluates to at the call. *)
Variable wallClock : Date.

(** [metadata?.now ?? new Date()] *)
Definition nowOr (metadata : option Metadata) : Date :=
  match metadata with
  | Some m => match now m with Some d => d | None => wallClock end
  | None => wallClock
  end.

Definition initialState : ShoppingCart :=
  {| id := ""; customerId := ""; status := Opened; items := [];
     openedAt := wallClock; confirmedAt := None; cancelledAt := None |}.

Definition openShoppingCart (shoppingCartId customerId : string)
    (state : ShoppingCart) (metadata : option Metadata)
    : Result ShoppingCartEvent :=
  if decide (id state <> "") then
    Throw (IllegalStateError "Shopping cart already exists")
  else
    Ok (ShoppingCartOpened shoppingCartId customerId (nowOr metadata)).

Definition addProductItem (shoppingCartId : string)
    (productItem : PricedProductItem)
    (state : ShoppingCart) (metadata : option Metadata)
    : Result ShoppingCartEvent :=
  if decide (status state <> Opened) then
    Throw (IllegalStateError "Cannot add product to a closed shopping cart")
  else
    Ok (ProductItemAddedToShoppingCart shoppingCartId productItem
          (nowOr metadata)).

Definition removeProductItem (shoppingCartId : string)
    (productItem : ProductItem)
    (state : ShoppingCart) (metadata : option Metadata)
    : Result ShoppingCartEvent :=
  if decide (status state <> Opened) then
    Throw (IllegalStateError
             "Cannot remove product from a closed shopping cart")
  else
    match find (fun item => productId item = pi_productId productItem)
               (items state) with
    | None =>
        Throw (IllegalStateError "Product item not found in shopping cart")
    | Some existingItem =>
        if quantity existingItem <? pi_quantity productItem then
          Throw (IllegalStateError
                   "Cannot remove more items than available in cart")
        else
          Ok (ProductItemRemovedFromShoppingCart shoppingCartId productItem
                (nowOr metadata))
    end.

Definition confirmShoppingCart (shoppingCartId : string)
    (state : ShoppingCart) (metadata : option Metadata)
    : Result ShoppingCartEvent :=
  if decide (status state <> Opened) then
    Throw (IllegalStateError
             "Cannot confirm a shopping cart that is not open")
  else if (length (items state) =? 0)%nat then
    Throw (IllegalStateError "Cannot confirm an empty shopping cart")
  else
    Ok (ShoppingCartConfirmed shoppingCartId (nowOr metadata)).

Definition cancelShoppingCart (shoppingCartId : string)
    (state : ShoppingCart) (metadata : option Metadata)
    : Result ShoppingCartEvent :=
  if decide (status state <> Opened) then
    Throw (IllegalStateError
             "Cannot cancel a shopping cart that is not open")
  else
    Ok (ShoppingCartCancelled shoppingCartId (nowOr metadata)).

Definition decide (command : ShoppingCartCommand) (state : ShoppingCart)
    (metadata : option Metadata) : Result ShoppingCartEvent :=
  match command with
  | OpenShoppingCart cid cust => openShoppingCart cid cust state metadata
  | AddProductItemToShoppingCart cid p => addProductItem cid p state metadata
  | RemoveProductItemFromShoppingCart cid p =>
      removeProductItem cid p state metadata
  | ConfirmShoppingCart cid => confirmShoppingCart cid state metadata
  | CancelShoppingCart cid => cancelShoppingCart cid state metadata
  | UnknownCommand type =>
      Throw (GenericError ("Unknown command type: " +:+ type))
  end.
End Clock.

Definition mergeProductItems (items : list PricedProductItem)
    (productItem : PricedProductItem) : Result (list PricedProductItem) :=
  let existingIndex :=
    findIndex (fun item => productId item = productId productItem) items in
  if 0 <=? existingIndex then
    let updatedItems := items in
    try! existing := at_ updatedItems existingIndex in
    Ok (setAt updatedItems existingIndex
          {| productId := productId existing;
             productName := productName existing;
             quantity := quantity existing + quantity productItem;
             unitPrice := unitPrice existing |})
  else
    Ok (items ++ [productItem]).

Definition removeProductItems (items : list PricedProductItem)
    (productItem : ProductItem) : Result (list PricedProductItem) :=
  let existingIndex :=
    findIndex (fun item => productId item = pi_productId productItem) items in
  if existingIndex <? 0 then Ok items
  else
    try! existingItem := at_ items existingIndex in
    let newQuantity := quantity existingItem - pi_quantity productItem in
    if newQuantity <=? 0 then
      Ok (filterIndexed
            (fun _ index => negb (Z.of_nat index =? existingIndex)) items)
    else
      let updatedItems := items in
      Ok (setAt updatedItems existingIndex
            {| productId := productId existingItem;
               productName := productName existingItem;
               quantity := newQuantity;
               unitPrice := unitPrice existingItem |}).

Definition evolve (state : ShoppingCart) (event : ShoppingCartEvent)
    : Result ShoppingCart :=
  match event with
  | ShoppingCartOpened cartId customer at_time =>
      Ok {| id := cartId; customerId := customer;
            status := Opened; items := []; openedAt := at_time;
            confirmedAt := None; cancelledAt := None |}
  | ProductItemAddedToShoppingCart _ productItem _ =>
      try! merged := mergeProductItems (items state) productItem in
      Ok {| id := id state; customerId := customerId state;
            status := status state; items := merged;
            openedAt := openedAt state;
            confirmedAt := confirmedAt state;
            cancelledAt := cancelledAt state |}
  | ProductItemRemovedFromShoppingCart _ productItem _ =>
      try! remaining := removeProductItems (items state) productItem in
      Ok {| id := id state; customerId := customerId state;
            status := status state; items := remaining;
            openedAt := openedAt state;
            confirmedAt := confirmedAt state;
            cancelledAt := cancelledAt state |}
  | ShoppingCartConfirmed _ at_time =>
      Ok {| id := id state; customerId := customerId state;
            status := Confirmed; items := items state;
            openedAt := openedAt state;
            confirmedAt := Some at_time;
            cancelledAt := cancelledAt state |}
  | ShoppingCartCancelled _ at_time =>
      Ok {| id := id state; customerId := customerId state;
            status := Cancelled; items := items state;
            openedAt := openedAt state;
            confirmedAt := confirmedAt state;
            cancelledAt := Some at_time |}
  | UnrecognizedEvent _ => Ok state
  end.

(** The replay loop of the command handler and of [GET /carts/:id]:
    [for (const event of events) state = evolve(state, event)]. *)
Fixpoint replay (state : ShoppingCart) (events : list ShoppingCartEvent)
    : Result ShoppingCart :=
  match events with
  | [] => Ok state
  | event :: rest => try! next := evolve state event in replay next rest
  end.

End Decider.


(** ** projections/shoppingCartSummary.ts *)

Module Summary.

Record Totals : Type := mkTotals {
  t_totalAmount : float;
  t_totalItemsCount : Z;
}.

(** [items.reduce((totals, item) => ..., { totalAmount: 0, totalItemsCount: 0 })] *)
Definition calculateTotals (items : list PricedProductItem) : Totals :=
  fold_left
    (fun totals item =>
       {| t_totalAmount :=
            (t_totalAmount totals + unitPrice item * numberOfZ (quantity item))%float;
          t_totalItemsCount := t_totalItemsCount totals + quantity item |})
    items
    {| t_totalAmount := 0%float; t_totalItemsCount := 0 |}.

(** The projection file carries its own copies of the two list helpers. *)
Definition mergeProductItems (items : list PricedProductItem)
    (productItem : PricedProductItem) : Result (list PricedProductItem) :=
  let existingIndex :=
    findIndex (fun item => productId item = productId productItem) items in
  if 0 <=? existingIndex then
    let updatedItems := items in
    try! existing := at_ updatedItems existingIndex in
    Ok (setAt updatedItems existingIndex
          {| productId := productId existing;
             productName := productName existing;
             quantity := quantity existing + quantity productItem;
             unitPrice := unitPrice existing |})
  else
    Ok (items ++ [productItem]).

Definition removeProductItems (items : list PricedProductItem)
    (productItem : ProductItem) : Result (list PricedProductItem) :=
  let existingIndex :=
    findIndex (fun item => productId item = pi_productId productItem) items in
  if existingIndex <? 0 then Ok items
  else
    try! existingItem := at_ items existingIndex in
    let newQuantity := quantity existingItem - pi_quantity productItem in
    if newQuantity <=? 0 then
      Ok (filterIndexed
            (fun _ index => negb (Z.of_nat index =? existingIndex)) items)
    else
      let updatedItems := items in
      Ok (setAt updatedItems existingIndex
            {| productId := productId existingItem;
               productName := productName existingItem;
               quantity := newQuantity;
               unitPrice := unitPrice existingItem |}).

(** [{ ...document, items: updatedItems, ...totals }] *)
Definition withItems (document : ShoppingCartSummary)
    (updatedItems : list PricedProductItem) (totals : Totals)
    : ShoppingCartSummary :=
  {| s_id := s_id document; s_customerId := s_customerId document;
     s_status := s_status document; s_items := updatedItems;
     totalAmount := t_totalAmount totals;
     totalItemsCount := t_totalItemsCount totals;
     s_openedAt := s_openedAt document;
     s_confirmedAt := s_confirmedAt document;
     s_cancelledAt := s_cancelledAt document |}.

Definition evolveShoppingCartSummary (document : option ShoppingCartSummary)
    (event : ShoppingCartEvent) : Result (option ShoppingCartSummary) :=
  match event with
  | ShoppingCartOpened cartId customer at_time =>
      Ok (Some {| s_id := cartId; s_customerId := customer;
                  s_status := Opened; s_items := [];
                  totalAmount := 0%float; totalItemsCount := 0;
                  s_openedAt := at_time;
                  s_confirmedAt := None; s_cancelledAt := None |})
  | ProductItemAddedToShoppingCart _ productItem _ =>
      match document with
      | None => Ok None
      | Some document =>
          try! updatedItems := mergeProductItems (s_items document) productItem in
          let totals := calculateTotals updatedItems in
          Ok (Some (withItems document updatedItems totals))
      end
  | ProductItemRemovedFromShoppingCart _ productItem _ =>
      match document with
      | None => Ok None
      | Some document =>
          try! updatedItems := removeProductItems (s_items document) productItem in
          let totals := calculateTotals updatedItems in
          Ok (Some (withItems document updatedItems totals))
      end
  | ShoppingCartConfirmed _ at_time =>
      match document with
      | None => Ok None
      | Some document =>
          Ok (Some {| s_id := s_id document;
                      s_customerId := s_customerId document;
                      s_status := Confirmed; s_items := s_items document;
                      totalAmount := totalAmount document;
                      totalItemsCount := totalItemsCount document;
                      s_openedAt := s_openedAt document;
                      s_confirmedAt := Some at_time;
                      s_cancelledAt := s_cancelledAt document |})
      end
  | ShoppingCartCancelled _ at_time =>
      match document with
      | None => Ok None
      | Some document =>
          Ok (Some {| s_id := s_id document;
                      s_customerId := s_customerId document;
                      s_status := Cancelled; s_items := s_items document;
                      totalAmount := totalAmount document;
                      totalItemsCount := totalItemsCount document;
                      s_openedAt := s_openedAt document;
                      s_confirmedAt := s_confirmedAt document;
                      s_cancelledAt := Some at_time |})
      end
  | UnrecognizedEvent _ => Ok document
  end.

(** Folding the projection over an event sequence, in order. *)
Fixpoint project (document : option ShoppingCartSummary)
    (events : list ShoppingCartEvent) : Result (option ShoppingCartSummary) :=
  match events with
  | [] => Ok document
  | event :: rest =>
      try! next := evolveShoppingCartSummary document event in
      project next rest
  end.

End Summary.

(** ** projections/customerShoppingSummary.ts *)

Module Customer.

Record CartEntry : Type := mkEntry {
  e_id : string;
  e_status : string;
  e_totalAmount : float;
  e_openedAt : Date;
}.

Record CustomerShoppingSummary : Type := mkCustomer {
  c_customerId : string;
  totalCarts : Z;
  activeCartsCount : Z;
  confirmedCartsCount : Z;
  cancelledCartsCount : Z;
  totalSpent : float;
  lastActivityAt : Date;
  carts : list CartEntry;
}.

Definition evolveCustomerShoppingSummary
    (document : option CustomerShoppingSummary)
    (event : ShoppingCartEvent) (streamId : string)
    : Result (option CustomerShoppingSummary) :=
  match event with
  | ShoppingCartOpened cartId customer at_time =>
      let existing :=
        match document with
        | Some d => d
        | None =>
            {| c_customerId := customer; totalCarts := 0;
               activeCartsCount := 0; confirmedCartsCount := 0;
               cancelledCartsCount := 0; totalSpent := 0%float;
               lastActivityAt := at_time; carts := [] |}
        end in
      Ok (Some {| c_customerId := c_customerId existing;
                  totalCarts := totalCarts existing + 1;
                  activeCartsCount := activeCartsCount existing + 1;
                  confirmedCartsCount := confirmedCartsCount existing;
                  cancelledCartsCount := cancelledCartsCount existing;
                  totalSpent := totalSpent existing;
                  lastActivityAt := at_time;
                  carts := carts existing ++
                    [ {| e_id := cartId; e_status := "Opened";
                         e_totalAmount := 0%float; e_openedAt := at_time |} ] |})
  | ProductItemAddedToShoppingCart cartId productItem at_time =>
      match document with
      | None => Ok None
      | Some document =>
          let cartIndex := findIndex (fun cart => e_id cart = cartId)
                             (carts document) in
          if cartIndex <? 0 then Ok (Some document)
          else
            let updatedCarts := carts document in
            try! cart := at_ updatedCarts cartIndex in
            let updatedCarts :=
              setAt updatedCarts cartIndex
                {| e_id := e_id cart; e_status := e_status cart;
                   e_totalAmount :=
                     (e_totalAmount cart +
                      unitPrice productItem * numberOfZ (quantity productItem))%float;
                   e_openedAt := e_openedAt cart |} in
            Ok (Some {| c_customerId := c_customerId document;
                        totalCarts := totalCarts document;
                        activeCartsCount := activeCartsCount document;
                        confirmedCartsCount := confirmedCartsCount document;
                        cancelledCartsCount := cancelledCartsCount document;
                        totalSpent := totalSpent document;
                        lastActivityAt := at_time;
                        carts := updatedCarts |})
      end
  | ProductItemRemovedFromShoppingCart _ _ at_time =>
      match document with
      | None => Ok None
      | Some document =>
          Ok (Some {| c_customerId := c_customerId document;
                      totalCarts := totalCarts document;
                      activeCartsCount := activeCartsCount document;
                      confirmedCartsCount := confirmedCartsCount document;
                      cancelledCartsCount := cancelledCartsCount document;
                      totalSpent := totalSpent document;
                      lastActivityAt := at_time;
                      carts := carts document |})
      end
  | ShoppingCartConfirmed cartId at_time =>
      match document with
      | None => Ok None
      | Some document =>
          let cartIndex := findIndex (fun cart => e_id cart = cartId)
                             (carts document) in
          if cartIndex <? 0 then Ok (Some document)
          else
            try! cart := at_ (carts document) cartIndex in
            let updatedCarts :=
              setAt (carts document) cartIndex
                {| e_id := e_id cart; e_status := "Confirmed";
                   e_totalAmount := e_totalAmount cart;
                   e_openedAt := e_openedAt cart |} in
            Ok (Some {| c_customerId := c_customerId document;
                        totalCarts := totalCarts document;
                        activeCartsCount := activeCartsCount document - 1;
                        confirmedCartsCount := confirmedCartsCount document + 1;
                        cancelledCartsCount := cancelledCartsCount document;
                        totalSpent :=
                          (totalSpent document + e_totalAmount cart)%float;
                        lastActivityAt := at_time;
                        carts := updatedCarts |})
      end
  | ShoppingCartCancelled cartId at_time =>
      match document with
      | None => Ok None
      | Some document =>
          let cartIndex := findIndex (fun cart => e_id cart = cartId)
                             (carts document) in
          if cartIndex <? 0 then Ok (Some document)
          else
            let updatedCarts := carts document in
            try! cart := at_ updatedCarts cartIndex in
            let updatedCarts :=
              setAt updatedCarts cartIndex
                {| e_id := e_id cart; e_status := "Cancelled";
                   e_totalAmount := e_totalAmount cart;
                   e_openedAt := e_openedAt cart |} in
            Ok (Some {| c_customerId := c_customerId document;
                        totalCarts := totalCarts document;
                        activeCartsCount := activeCartsCount document - 1;
                        confirmedCartsCount := confirmedCartsCount document;
                        cancelledCartsCount := cancelledCartsCount document + 1;
                        totalSpent := totalSpent document;
                        lastActivityAt := at_time;
                        carts := updatedCarts |})
      end
  | UnrecognizedEvent _ => Ok document
  end.

End Customer.

(** ** eventStore/jsonFileEventStore.ts *)

Module FileStore.

(** What the wrapper reads of an event returned by [readStream]. *)
Record EventMetadata : Type := mkEventMetadata {
  streamPosition : Z;
  globalPosition : option Z;
}.

Record ReadEvent (E : Type) : Type := mkReadEvent {
  r_event : E;                      (* [type] and [data] *)
  r_metadata : EventMetadata;
}.
Arguments mkReadEvent {E} _ _.
Arguments r_event {E} _.
Arguments r_metadata {E} _.

Record ReadStreamResult (E : Type) : Type := mkReadStreamResult {
  events : list (ReadEvent E);
  currentStreamVersion : Z;
}.
Arguments mkReadStreamResult {E} _ _.
Arguments events {E} _.
Arguments currentStreamVersion {E} _.

(** [options?: any], of which emmett reads [expectedStreamVersion]. *)
Record AppendOptions : Type := mkAppendOptions {
  expectedStreamVersion : option Z;
}.

(** The object handed to [JSON.stringify]; the positions and the version
    are written as their decimal strings. *)
Record JsonData (E : Type) : Type := mkJsonData {
  j_streamId : string;
  j_events : list (ReadEvent E);
  j_currentStreamVersion : Z;
  j_lastUpdated : string;
}.
Arguments mkJsonData {E} _ _ _ _.
Arguments j_streamId {E} _.
Arguments j_events {E} _.
Arguments j_currentStreamVersion {E} _.
Arguments j_lastUpdated {E} _.

(** [path.join(dataDirectory, `${streamId}.json`)] *)
Definition filePathOf (dataDirectory streamId : string) : string :=
  dataDirectory +:+ "/" +:+ streamId +:+ ".json".

(** A line written by [console.warn]. *)
Record Warning : Type := mkWarning {
  w_message : string;
  w_error : Error;
}.

Section Store.

(** The event type ([EventStore<any>]). *)
Context {E : Type}.

(** emmett's in-memory event store, a library outside this repository:
    its state, the result type of its append, and its two operations. *)
Variable MemStore : Type.
Variable AppendResult : Type.
Variable originalAppendToStream :
  MemStore -> string -> list E -> option AppendOptions ->
  MemStore * Result AppendResult.
Variable readStream : MemStore -> string -> Result (ReadStreamResult E).

(** The file system behind [fs.writeFile]. *)
Variable FileSystem : Type.
Variable writeFile :
  FileSystem -> string -> JsonData E -> FileSystem * Result unit.

Variable dataDirectory : string.

(** Everything the overriding [appendToStream] touches. *)
Record World : Type := mkWorld {
  mem : MemStore;
  disk : FileSystem;
  console : list Warning;
}.

(** The [try] block: read the stream back and write the stream file. *)
Definition saveToFile (memory : MemStore) (files : FileSystem)
    (streamId lastUpdated : string) : FileSystem * Result unit :=
  match readStream memory streamId with
  | Throw error => (files, Throw error)
  | Ok streamResult =>
      let filePath := filePathOf dataDirectory streamId in
      let jsonData :=
        {| j_streamId := streamId;
           j_events := events streamResult;
           j_currentStreamVersion := currentStreamVersion streamResult;
           j_lastUpdated := lastUpdated |} in
      writeFile files filePath jsonData
  end.

(** The override installed by [getJsonFileEventStore];
    [lastUpdated] is [new Date().toISOString()] at the call. *)
Definition appendToStream (world : World) (streamId : string)
    (newEvents : list E) (options : option AppendOptions)
    (lastUpdated : string) : World * Result AppendResult :=
  let '(memory, appended) :=
    originalAppendToStream (mem world) streamId newEvents options in
  match appended with
  | Throw error =>
      ({| mem := memory; disk := disk world; console := console world |},
       Throw error)
  | Ok result =>
      let '(files, saved) :=
        saveToFile memory (disk world) streamId lastUpdated in
      match saved with
      | Ok _ =>
          ({| mem := memory; disk := files; console := console world |},
           Ok result)
      | Throw error =>
          ({| mem := memory; disk := files;
              console := console world ++
                [ {| w_message :=
                       "Failed to save stream " +:+ streamId +:+ " to file:";
                     w_error := error |} ] |},
           Ok result)
      end
  end.

End Store.

Arguments mkWorld {MemStore FileSystem} _ _ _.
Arguments mem {MemStore FileSystem} _.
Arguments disk {MemStore FileSystem} _.
Arguments console {MemStore FileSystem} _.

(** *** The per-file fold of [getAllCarts] *)

Record CartItem : Type := mkCartItem {
  ci_productId : string;
  ci_productName : string;
  ci_quantity : Z;
  ci_price : float;
}.

Record CartSummary : Type := mkCartSummary {
  cs_id : string;
  cs_lastUpdated : string;
  cs_totalEvents : nat;
  cs_status : ShoppingCartStatus;
  cs_items : list CartItem;
  cs_customerId : option string;
  cs_openedAt : option Date;
  cs_confirmedAt : option Date;
  cs_cancelledAt : option Date;
}.

(** The object literal built before the loop. *)
Definition emptyCartSummary (streamId lastUpdated : string)
    (totalEvents : nat) : CartSummary :=
  {| cs_id := streamId; cs_lastUpdated := lastUpdated;
     cs_totalEvents := totalEvents; cs_status := Opened; cs_items := [];
     cs_customerId := None; cs_openedAt := None;
     cs_confirmedAt := None; cs_cancelledAt := None |}.

Definition withCartItems (cartSummary : CartSummary)
    (newItems : list CartItem) : CartSummary :=
  {| cs_id := cs_id cartSummary;
     cs_lastUpdated := cs_lastUpdated cartSummary;
     cs_totalEvents := cs_totalEvents cartSummary;
     cs_status := cs_status cartSummary; cs_items := newItems;
     cs_customerId := cs_customerId cartSummary;
     cs_openedAt := cs_openedAt cartSummary;
     cs_confirmedAt := cs_confirmedAt cartSummary;
     cs_cancelledAt := cs_cancelledAt cartSummary |}.

(** One turn of the [switch (event.type)] inside the loop.  The object
    returned by [items.find] is the array's own element, so updating its
    [quantity] updates the slot it was found in. *)
Definition processEvent (cartSummary : CartSummary)
    (event : ShoppingCartEvent) : CartSummary :=
  match event with
  | ShoppingCartOpened _ customer at_time =>
      {| cs_id := cs_id cartSummary;
         cs_lastUpdated := cs_lastUpdated cartSummary;
         cs_totalEvents := cs_totalEvents cartSummary;
         cs_status := Opened; cs_items := cs_items cartSummary;
         cs_customerId := Some customer;
         cs_openedAt := Some at_time;
         cs_confirmedAt := cs_confirmedAt cartSummary;
         cs_cancelledAt := cs_cancelledAt cartSummary |}
  | ProductItemAddedToShoppingCart _ productItem _ =>
      match list_find (fun item => ci_productId item = productId productItem)
                      (cs_items cartSummary) with
      | Some (slot, existingItem) =>
          withCartItems cartSummary
            (<[slot := {| ci_productId := ci_productId existingItem;
                          ci_productName := ci_productName existingItem;
                          ci_quantity :=
                            ci_quantity existingItem + quantity productItem;
                          ci_price := ci_price existingItem |}]>
               (cs_items cartSummary))
      | None =>
          withCartItems cartSummary
            (cs_items cartSummary ++
               [ {| ci_productId := productId productItem;
                    ci_productName := productName productItem;
                    ci_quantity := quantity productItem;
                    ci_price := unitPrice productItem |} ])
      end
  | ProductItemRemovedFromShoppingCart _ productItem _ =>
      match list_find (fun item => ci_productId item = pi_productId productItem)
                      (cs_items cartSummary) with
      | Some (slot, itemToRemove) =>
          let remaining := ci_quantity itemToRemove - pi_quantity productItem in
          let updated :=
            <[slot := {| ci_productId := ci_productId itemToRemove;
                         ci_productName := ci_productName itemToRemove;
                         ci_quantity := remaining;
                         ci_price := ci_price itemToRemove |}]>
              (cs_items cartSummary) in
          if remaining <=? 0 then
            withCartItems cartSummary
              (filter (fun item => ci_productId item <> pi_productId productItem)
                      updated)
          else withCartItems cartSummary updated
      | None => cartSummary
      end
  | ShoppingCartConfirmed _ at_time =>
      {| cs_id := cs_id cartSummary;
         cs_lastUpdated := cs_lastUpdated cartSummary;
         cs_totalEvents := cs_totalEvents cartSummary;
         cs_status := Confirmed; cs_items := cs_items cartSummary;
         cs_customerId := cs_customerId cartSummary;
         cs_openedAt := cs_openedAt cartSummary;
         cs_confirmedAt := Some at_time;
         cs_cancelledAt := cs_cancelledAt cartSummary |}
  | ShoppingCartCancelled _ at_time =>
      {| cs_id := cs_id cartSummary;
         cs_lastUpdated := cs_lastUpdated cartSummary;
         cs_totalEvents := cs_totalEvents cartSummary;
         cs_status := Cancelled; cs_items := cs_items cartSummary;
         cs_customerId := cs_customerId cartSummary;
         cs_openedAt := cs_openedAt cartSummary;
         cs_confirmedAt := cs_confirmedAt cartSummary;
         cs_cancelledAt := Some at_time |}
  | UnrecognizedEvent _ => cartSummary
  end.

(** [for (const event of jsonData.events) switch ...] for one stream file. *)
Definition rebuildCart (streamId lastUpdated : string)
    (fileEvents : list ShoppingCartEvent) : CartSummary :=
  fold_left processEvent fileEvents
    (emptyCartSummary streamId lastUpdated (length fileEvents)).

End FileStore.

(** ** shoppingCart/api/index.ts *)

Module Api.

(** The JSON bodies the routes answer with; a revision stands for the
    decimal string [String(revision)]. *)
Inductive Body : Type :=
| CreatedBody (id customerId status : string) (revision : Z)
| MessageBody (message : string) (revision : Z)
| CartBody (state : ShoppingCart) (revision : Z)
| ErrorBody (error : string).

Record Response : Type := mkResponse {
  statusCode : Z;
  location : option string;       (* the [Location] header *)
  body : Body;
}.

(** [(error as Error).message] *)
Definition messageOf (error : Error) : string :=
  match error with
  | IllegalStateError message
  | GenericError message
  | TypeError message => message
  end.

(** [POST /carts/:id/items] of a well-formed request: the path parameter,
    the three body fields and the [If-Match] header. *)
Record AddItemRequest : Type := mkAddItemRequest {
  add_id : string;
  add_productId : string;
  add_productName : string;
  add_quantity : Z;
  add_ifMatch : option string;
}.

(** [DELETE /carts/:id/items/:productId]: the body may lack [quantity]. *)
Record RemoveItemRequest : Type := mkRemoveItemRequest {
  rem_id : string;
  rem_productId : string;
  rem_quantity : option Z;
  rem_ifMatch : option string;
}.

Section Routes.

(** The event store handed to [shoppingCartApi]. *)
Variable Store : Type.
Variable AppendResult : Type.
Variable readStream :
  Store -> string -> Result (FileStore.ReadStreamResult ShoppingCartEvent).
Variable appendToStream :
  Store -> string -> list ShoppingCartEvent ->
  option FileStore.AppendOptions -> Store * Result AppendResult.
Variable nextExpectedStreamVersion : AppendResult -> Z.

(** [getProductPrice], and [BigInt(text)], which throws on a text that is
    not an integer literal. *)
Variable getProductPrice : string -> option float.
Variable parseBigInt : string -> Result Z.

(** What [getCurrentTime()] and the [new Date()] of [initialState()]
    evaluate to during the request. *)
Variable currentTime : Date.
Variable wallClock : Date.

Definition handleCommand (store : Store) (streamId : string)
    (command : ShoppingCartCommand) (expectedRevision : option Z)
    : Store * Result Z :=
  match readStream store streamId with
  | Throw error => (store, Throw error)
  | Ok readResult =>
      match Decider.replay (Decider.initialState wallClock)
              (FileStore.r_event <$> FileStore.events readResult) with
      | Throw error => (store, Throw error)
      | Ok currentState =>
          match Decider.decide wallClock command currentState
                  (Some {| now := Some currentTime |}) with
          | Throw error => (store, Throw error)
          | Ok newEvent =>
              let '(stored, appended) :=
                appendToStream store streamId [ newEvent ]
                  (Some {| FileStore.expectedStreamVersion :=
                             expectedRevision |}) in
              match appended with
              | Ok appendResult =>
                  (stored, Ok (nextExpectedStreamVersion appendResult))
              | Throw error => (stored, Throw error)
              end
          end
      end
  end.

(** [revisionHeader ? BigInt(revisionHeader) : undefined] *)
Definition expectedRevisionOf (revisionHeader : option string)
    : Result (option Z) :=
  match revisionHeader with
  | None => Ok None
  | Some text =>
      if decide (text = "") then Ok None
      else try! revision := parseBigInt text in Ok (Some revision)
  end.

(** [catch (error) { res.status(400).json({ error: error.message }) }] *)
Definition badRequest (error : Error) : Response :=
  {| statusCode := 400; location := None;
     body := ErrorBody (messageOf error) |}.

(** [POST /carts]; the two ids are what the calls of [uuid()] return, and
    [customerId] is [req.body.customerId]. *)
Definition createCart (store : Store) (freshCartId freshCustomerId : string)
    (requested : option string) : Store * Response :=
  let shoppingCartId := freshCartId in
  let customerId :=
    match requested with
    | Some given => if decide (given = "") then freshCustomerId else given
    | None => freshCustomerId
    end in
  let command := OpenShoppingCart shoppingCartId customerId in
  let '(stored, handled) :=
    handleCommand store shoppingCartId command None in
  match handled with
  | Ok nextRevision =>
      (stored,
       {| statusCode := 201;
          location := Some ("/carts/" +:+ shoppingCartId);
          body := CreatedBody shoppingCartId customerId "Opened"
                    nextRevision |})
  | Throw error => (stored, badRequest error)
  end.

Definition addItem (store : Store) (request : AddItemRequest)
    : Store * Response :=
  match expectedRevisionOf (add_ifMatch request) with
  | Throw error => (store, badRequest error)
  | Ok expectedRevision =>
      match getProductPrice (add_productId request) with
      | None =>
          (store,
           badRequest
             (GenericError
                ("Product " +:+ add_productId request +:+ " not found")))
      | Some unitPrice =>
          let productItem :=
            {| productId := add_productId request;
               productName := add_productName request;
               quantity := add_quantity request;
               unitPrice := unitPrice |} in
          let command :=
            AddProductItemToShoppingCart (add_id request) productItem in
          let '(stored, handled) :=
            handleCommand store (add_id request) command expectedRevision in
          match handled with
          | Ok nextRevision =>
              (stored,
               {| statusCode := 200; location := None;
                  body := MessageBody "Product added to cart" nextRevision |})
          | Throw error => (stored, badRequest error)
          end
      end
  end.

(** The product item of the command has no [productName]; the field, which
    nothing reads on removal, is left empty.  [quantity || 1] takes 1 for a
    missing quantity and for 0. *)
Definition removeItem (store : Store) (request : RemoveItemRequest)
    : Store * Response :=
  match expectedRevisionOf (rem_ifMatch request) with
  | Throw error => (store, badRequest error)
  | Ok expectedRevision =>
      let command :=
        RemoveProductItemFromShoppingCart (rem_id request)
          {| pi_productId := rem_productId request;
             pi_productName := "";
             pi_quantity :=
               match rem_quantity request with
               | Some asked => if asked =? 0 then 1 else asked
               | None => 1
               end |} in
      let '(stored, handled) :=
        handleCommand store (rem_id request) command expectedRevision in
      match handled with
      | Ok nextRevision =>
          (stored,
           {| statusCode := 200; location := None;
              body := MessageBody "Product removed from cart" nextRevision |})
      | Throw error => (stored, badRequest error)
      end
  end.

(** [POST /carts/:id/confirm] and [POST /carts/:id/cancel] *)
Definition confirmCart (store : Store) (cartId : string)
    (revisionHeader : option string) : Store * Response :=
  match expectedRevisionOf revisionHeader with
  | Throw error => (store, badRequest error)
  | Ok expectedRevision =>
      let '(stored, handled) :=
        handleCommand store cartId (ConfirmShoppingCart cartId)
          expectedRevision in
      match handled with
      | Ok nextRevision =>
          (stored,
           {| statusCode := 200; location := None;
              body := MessageBody "Cart confirmed" nextRevision |})
      | Throw error => (stored, badRequest error)
      end
  end.

Definition cancelCart (store : Store) (cartId : string)
    (revisionHeader : option string) : Store * Response :=
  match expectedRevisionOf revisionHeader with
  | Throw error => (store, badRequest error)
  | Ok expectedRevision =>
      let '(stored, handled) :=
        handleCommand store cartId (CancelShoppingCart cartId)
          expectedRevision in
      match handled with
      | Ok nextRevision =>
          (stored,
           {| statusCode := 200; location := None;
              body := MessageBody "Cart cancelled" nextRevision |})
      | Throw error => (stored, badRequest error)
      end
  end.

Definition notFound : Response :=
  {| statusCode := 404; location := None;
     body := ErrorBody "Cart not found" |}.

(** [GET /carts/:id] *)
Definition getCart (store : Store) (cartId : string) : Response :=
  match readStream store cartId with
  | Throw _ => notFound
  | Ok streamResult =>
      match Decider.replay (Decider.initialState wallClock)
              (FileStore.r_event <$> FileStore.events streamResult) with
      | Throw _ => notFound
      | Ok currentState =>
          let currentVersion := FileStore.currentStreamVersion streamResult in
          if (length (FileStore.events streamResult) =? 0)%nat then notFound
          else
            {| statusCode := 200; location := None;
               body := CartBody currentState currentVersion |}
      end
  end.

End Routes.

End Api.

(** ** index.ts *)

Module Index.

(** [new Map([['product-001', 29.99], ...])] *)
Definition productCatalog : list (string * float) :=
  [ ("product-001", 29.99%float);
    ("product-002", 49.99%float);
    ("product-003", 19.99%float);
    ("product-004", 99.99%float);
    ("product-005", 149.99%float) ].

(** [productCatalog.get(productId)] *)
Definition getProductPrice (productId : string) : option float :=
  snd <$> List.find (fun entry => bool_decide (fst entry = productId))
            productCatalog.

End Index.

(** ** eventStore/jsonFileEventStore.ts: listing and start-up *)

Module Listing.

(** [file.endsWith(suffix)] *)
Fixpoint endsWith (file suffix : string) : bool :=
  if String.eqb file suffix then true
  else match file with
       | EmptyString => false
       | String _ rest => endsWith rest suffix
       end.

(** [path.join(dataDirectory, file)] *)
Definition joinPath (dataDirectory file : string) : string :=
  dataDirectory +:+ "/" +:+ file.

Section Files.

(** The file system: [fs.readdir], and [fs.readFile] followed by
    [JSON.parse] of a stream document, an object with the [streamId] and
    [lastUpdated] strings and the [events] array that the store writes.  The
    read fails where the code throws: the file cannot be read, is not JSON,
    or has no [events] to take the length of.  [lastUpdated] is any string,
    a date or not. *)
Variable FileSystem : Type.
Variable readdir : FileSystem -> string -> Result (list string).
Variable readJson :
  FileSystem -> string -> Result (FileStore.JsonData ShoppingCartEvent).

(** [new Date(lastUpdated).getTime()]: the epoch milliseconds of a stamp
    that is a date, and [None] for the NaN of a stamp that is not. *)
Variable timeOf : string -> option Z.

Variable dataDirectory : string.

(** One turn of the loop over the directory: the carts pushed so far and
    the console. *)
Definition listFile (files : FileSystem)
    (acc : list FileStore.CartSummary * list FileStore.Warning)
    (file : string) : list FileStore.CartSummary * list FileStore.Warning :=
  if endsWith file ".json" then
    match readJson files (joinPath dataDirectory file) with
    | Ok jsonData =>
        (fst acc ++
           [ FileStore.rebuildCart (FileStore.j_streamId jsonData)
               (FileStore.j_lastUpdated jsonData)
               (FileStore.r_event <$> FileStore.j_events jsonData) ],
         snd acc)
    | Throw error =>
        (fst acc,
         snd acc ++
           [ {| FileStore.w_message := "Failed to process " +:+ file +:+ ":";
                FileStore.w_error := error |} ])
    end
  else acc.

(** The comparator [(a, b) => time(b.lastUpdated) - time(a.lastUpdated)];
    a NaN result is read by [sort] as [+0]. *)
Definition newestFirst (a b : FileStore.CartSummary) : Z :=
  match timeOf (FileStore.cs_lastUpdated b),
        timeOf (FileStore.cs_lastUpdated a) with
  | Some timeB, Some timeA => timeB - timeA
  | _, _ => 0
  end.

(** [carts.sort(newestFirst)].  The sort of the language is stable; with a
    consistent comparator, which this one is as long as no stamp is NaN, its
    result is the insertion of each cart, from the last to the first, behind
    the carts the comparator puts before it.  With a NaN stamp the language
    leaves the order to the engine, and this is one order it may return. *)
Fixpoint insertNewestFirst (cart : FileStore.CartSummary)
    (sorted : list FileStore.CartSummary) : list FileStore.CartSummary :=
  match sorted with
  | [] => [ cart ]
  | other :: rest =>
      if 0 <? newestFirst cart other
      then other :: insertNewestFirst cart rest
      else cart :: other :: rest
  end.

Definition sortNewestFirst (carts : list FileStore.CartSummary)
    : list FileStore.CartSummary :=
  foldr insertNewestFirst [] carts.

Definition getAllCarts (files : FileSystem)
    (console : list FileStore.Warning)
    : list FileStore.CartSummary * list FileStore.Warning :=
  match readdir files dataDirectory with
  | Throw error =>
      ([],
       console ++
         [ {| FileStore.w_message := "Failed to get all carts:";
              FileStore.w_error := error |} ])
  | Ok names =>
      let '(carts, warned) :=
        fold_left (listFile files) names ([], console) in
      (sortNewestFirst carts, warned)
  end.

(** *** [loadExistingData] *)

Variable MemStore : Type.
Variable AppendResult : Type.
Variable originalAppendToStream :
  MemStore -> string -> list ShoppingCartEvent ->
  option FileStore.AppendOptions -> MemStore * Result AppendResult.
Variable readStream :
  MemStore -> string -> Result (FileStore.ReadStreamResult ShoppingCartEvent).
Variable writeFile :
  FileSystem -> string -> FileStore.JsonData ShoppingCartEvent ->
  FileSystem * Result unit.

(** The ISO time at which the file of that name is written back. *)
Variable isoNow : string -> string.

(** One turn of the loop of [loadExistingData].  The store it is given is
    the in-memory store whose [appendToStream] was replaced just before, so
    the append is the file-backed one. *)
Definition loadFile (world : FileStore.World MemStore FileSystem)
    (file : string) : FileStore.World MemStore FileSystem :=
  if endsWith file ".json" then
    match readJson (FileStore.disk world) (joinPath dataDirectory file) with
    | Throw error =>
        FileStore.mkWorld (FileStore.mem world) (FileStore.disk world)
          (FileStore.console world ++
             [ {| FileStore.w_message := "Failed to load " +:+ file +:+ ":";
                  FileStore.w_error := error |} ])
    | Ok jsonData =>
        let streamId := FileStore.j_streamId jsonData in
        let loaded := FileStore.r_event <$> FileStore.j_events jsonData in
        if (0 <? length loaded)%nat then
          let '(after, appended) :=
            FileStore.appendToStream MemStore AppendResult
              originalAppendToStream readStream FileSystem writeFile
              dataDirectory world streamId loaded None (isoNow file) in
          match appended with
          | Ok _ => after
          | Throw error =>
              FileStore.mkWorld (FileStore.mem after) (FileStore.disk after)
                (FileStore.console after ++
                   [ {| FileStore.w_message :=
                          "Failed to load " +:+ file +:+ ":";
                        FileStore.w_error := error |} ])
          end
        else world
    end
  else world.

Definition loadExistingData (world : FileStore.World MemStore FileSystem)
    : FileStore.World MemStore FileSystem :=
  match readdir (FileStore.disk world) dataDirectory with
  | Throw _ => world
  | Ok names => fold_left loadFile names world
  end.

End Files.

End Listing.

(** ** Vocabulary of the properties *)

(** [{ ...item, quantity: q }] *)
Definition withQuantity (item : PricedProductItem) (q : Z) : PricedProductItem :=
  {| productId := productId item; productName := productName item;
     quantity := q; unitPrice := unitPrice item |}.

(** [{ ...state, items: newItems }] *)
Definition withStateItems (state : ShoppingCart)
    (newItems : list PricedProductItem) : ShoppingCart :=
  {| id := id state; customerId := customerId state; status := status state;
     items := newItems; openedAt := openedAt state;
     confirmedAt := confirmedAt state; cancelledAt := cancelledAt state |}.

(** The five commands of [commands/index.ts]. *)
Definition knownCommand (command : ShoppingCartCommand) : Prop :=
  match command with
  | UnknownCommand _ => False
  | _ => True
  end.

Definition isOpenCommand (command : ShoppingCartCommand) : Prop :=
  match command with
  | OpenShoppingCart _ _ => True
  | _ => False
  end.

(** A state is terminal once it is confirmed or cancelled. *)
Definition terminal (state : ShoppingCart) : Prop :=
  status state = Confirmed \/ status state = Cancelled.

(** An [AddProductItemToShoppingCart] command asks for at least one unit. *)
Definition addsPositive (command : ShoppingCartCommand) : Prop :=
  match command with
  | AddProductItemToShoppingCart _ productItem => 0 < quantity productItem
  | _ => True
  end.

(** States obtained from the initial state by commands that [decide]
    accepts, each accepted event being folded by [evolve]; [admitted]
    restricts the commands that are issued. *)
Inductive reachableVia (admitted : ShoppingCartCommand -> Prop)
    : ShoppingCart -> Prop :=
| reach_initial (wallClock : Date) :
    reachableVia admitted (Decider.initialState wallClock)
| reach_command (wallClock : Date) (state next : ShoppingCart)
    (command : ShoppingCartCommand) (metadata : option Metadata)
    (event : ShoppingCartEvent) :
    reachableVia admitted state ->
    admitted command ->
    Decider.decide wallClock command state metadata = Ok event ->
    Decider.evolve state event = Ok next ->
    reachableVia admitted next.

Definition reachable : ShoppingCart -> Prop := reachableVia (fun _ => True).

Definition quantitiesPositive (lines : list PricedProductItem) : Prop :=
  Forall (fun item => 0 < quantity item) lines.

(** Issue the commands one after the other against the state: decide,
    then fold the accepted event; the accepted events are collected. *)
Fixpoint issue (wallClock : Date) (metadata : option Metadata)
    (state : ShoppingCart) (commands : list ShoppingCartCommand)
    : Result (ShoppingCart * list ShoppingCartEvent) :=
  match commands with
  | [] => Ok (state, [])
  | command :: rest =>
      try! event := Decider.decide wallClock command state metadata in
      try! next := Decider.evolve state event in
      try! outcome := issue wallClock metadata next rest in
      Ok (fst outcome, event :: snd outcome)
  end.

(** The sum over the lines of unit price times quantity, added up from
    the first line to the last as the program's numbers are (binary64
    addition is not associative), and the sum of the quantities. *)
Fixpoint amountFrom (start : float) (lines : list PricedProductItem) : float :=
  match lines with
  | [] => start
  | item :: rest =>
      amountFrom (start + unitPrice item * numberOfZ (quantity item))%float
        rest
  end.

Definition sumAmount (lines : list PricedProductItem) : float :=
  amountFrom 0%float lines.

Fixpoint sumQuantity (lines : list PricedProductItem) : Z :=
  match lines with
  | [] => 0
  | item :: rest => quantity item + sumQuantity rest
  end.

Definition totalsConsistent (document : ShoppingCartSummary) : Prop :=
  totalAmount document = sumAmount (s_items document) /\
  totalItemsCount document = sumQuantity (s_items document).

Definition totalsConsistentOpt (document : option ShoppingCartSummary) : Prop :=
  match document with
  | Some d => totalsConsistent d
  | None => True
  end.

(** The line [getAllCarts] keeps for a priced item ([price] for [unitPrice]). *)
Definition toCartItem (item : PricedProductItem) : FileStore.CartItem :=
  {| FileStore.ci_productId := productId item;
     FileStore.ci_productName := productName item;
     FileStore.ci_quantity := quantity item;
     FileStore.ci_price := unitPrice item |}.

Definition isOpenedEvent (event : ShoppingCartEvent) : bool :=
  match event with
  | ShoppingCartOpened _ _ _ => true
  | _ => false
  end.

(** [ShoppingCartOpened] occurs, if at all, only as the first event. *)
Definition openedOnlyFirst (stream : list ShoppingCartEvent) : Prop :=
  match stream with
  | [] => True
  | _ :: rest => Forall (fun event => isOpenedEvent event = false) rest
  end.

(** The cart id tracked by no entry of the customer document. *)
Definition untracked (cartId : string)
    (document : Customer.CustomerShoppingSummary) : Prop :=
  Forall (fun cart => Customer.e_id cart <> cartId) (Customer.carts document).

(** Sample data for running the definitions. *)
Definition productA (units : Z) (price : Z) : PricedProductItem :=
  {| productId := "productA"; productName := "Product A";
     quantity := units; unitPrice := numberOfZ price |}.

Definition sampleCart : ShoppingCart :=
  {| id := "cart-1"; customerId := "customer-9"; status := Opened;
     items := [ productA 2 10 ]; openedAt := 0;
     confirmedAt := None; cancelledAt := None |}.

Definition confirmedCart : ShoppingCart :=
  {| id := "cart-1"; customerId := "customer-9"; status := Confirmed;
     items := [ productA 2 10 ]; openedAt := 0;
     confirmedAt := Some 4; cancelledAt := None |}.

(** The state after CancelShoppingCart was accepted on the initial state. *)
Definition cancelledUnopened : ShoppingCart :=
  {| id := ""; customerId := ""; status := Cancelled; items := [];
     openedAt := 0; confirmedAt := None; cancelledAt := Some 3 |}.

(** [{ ...document, lastActivityAt: at_time }] *)
Definition withLastActivity (document : Customer.CustomerShoppingSummary)
    (at_time : Date) : Customer.CustomerShoppingSummary :=
  {| Customer.c_customerId := Customer.c_customerId document;
     Customer.totalCarts := Customer.totalCarts document;
     Customer.activeCartsCount := Customer.activeCartsCount document;
     Customer.confirmedCartsCount := Customer.confirmedCartsCount document;
     Customer.cancelledCartsCount := Customer.cancelledCartsCount document;
     Customer.totalSpent := Customer.totalSpent document;
     Customer.lastActivityAt := at_time;
     Customer.carts := Customer.carts document |}.

(** A customer document tracking the single cart [cart-1]. *)
Definition sampleCustomer : Customer.CustomerShoppingSummary :=
  {| Customer.c_customerId := "customer-9"; Customer.totalCarts := 1;
     Customer.activeCartsCount := 1; Customer.confirmedCartsCount := 0;
     Customer.cancelledCartsCount := 0; Customer.totalSpent := 0%float;
     Customer.lastActivityAt := 100;
     Customer.carts :=
       [ {| Customer.e_id := "cart-1"; Customer.e_status := "Opened";
            Customer.e_totalAmount := numberOfZ 20;
            Customer.e_openedAt := 100 |} ] |}.

(** The cart rebuilt by [getAllCarts] and the decider state agree on the
    lines and on the status; the state has one line per productId. *)
Definition agree (state : ShoppingCart) (cart : FileStore.CartSummary) : Prop :=
  FileStore.cs_items cart = toCartItem <$> items state /\
  FileStore.cs_status cart = status state /\
  NoDup (productId <$> items state).

(** A stream in which an item was added before the cart was opened. *)
Definition addedBeforeOpened : list ShoppingCartEvent :=
  [ ProductItemAddedToShoppingCart "cart-1" (productA 2 10) 1;
    ShoppingCartOpened "cart-1" "customer-9" 2 ].

Definition openedThenAdded : list ShoppingCartEvent :=
  [ ShoppingCartOpened "cart-1" "customer-9" 0;
    ProductItemAddedToShoppingCart "cart-1" (productA 2 10) 1 ].

(** A small in-memory store with the interface the wrapper relies on, for
    running it: a stream is the list of its events and its version is their
    number; an append with an expected version that is not the current one
    is refused. *)
Definition SampleMemory : Type := list (string * list ShoppingCartEvent).

Fixpoint sampleEventsOf (memory : SampleMemory) (streamId : string)
    : list ShoppingCartEvent :=
  match memory with
  | [] => []
  | (name, stored) :: rest =>
      if decide (name = streamId) then stored else sampleEventsOf rest streamId
  end.

Definition sampleAppend (memory : SampleMemory) (streamId : string)
    (newEvents : list ShoppingCartEvent)
    (options : option FileStore.AppendOptions) : SampleMemory * Result Z :=
  let stored := sampleEventsOf memory streamId in
  let version := Z.of_nat (length stored) in
  let appended :=
    ((streamId, stored ++ newEvents) :: memory,
     Ok (version + Z.of_nat (length newEvents))) in
  match options with
  | Some {| FileStore.expectedStreamVersion := Some expected |} =>
      if expected =? version then appended
      else (memory, Throw (GenericError "Expected version did not match"))
  | _ => appended
  end.

Definition sampleRead (memory : SampleMemory) (streamId : string)
    : Result (FileStore.ReadStreamResult ShoppingCartEvent) :=
  let stored := sampleEventsOf memory streamId in
  Ok {| FileStore.events :=
          imap (fun position event =>
                  FileStore.mkReadEvent event
                    {| FileStore.streamPosition := Z.of_nat position + 1;
                       FileStore.globalPosition := None |})
               stored;
        FileStore.currentStreamVersion := Z.of_nat (length stored) |}.

(** A disk on which every write fails, and one that keeps what is written. *)
Definition fullDisk (files : unit) (filePath : string)
    (content : FileStore.JsonData ShoppingCartEvent) : unit * Result unit :=
  (tt, Throw (GenericError "ENOSPC: no space left on device")).

Definition SampleDisk : Type :=
  list (string * FileStore.JsonData ShoppingCartEvent).

Definition keepingDisk (files : SampleDisk) (filePath : string)
    (content : FileStore.JsonData ShoppingCartEvent)
    : SampleDisk * Result unit :=
  ((filePath, content) :: files, Ok tt).

Definition saveWarning (streamId : string) (error : Error)
    : FileStore.Warning :=
  {| FileStore.w_message :=
       "Failed to save stream " +:+ streamId +:+ " to file:";
     FileStore.w_error := error |}.

(** ** Further vocabulary *)

(** The occurrence time an event carries. *)
Definition eventTime (event : ShoppingCartEvent) : option Date :=
  match event with
  | ShoppingCartOpened _ _ at_time
  | ProductItemAddedToShoppingCart _ _ at_time
  | ProductItemRemovedFromShoppingCart _ _ at_time
  | ShoppingCartConfirmed _ at_time
  | ShoppingCartCancelled _ at_time => Some at_time
  | UnrecognizedEvent _ => None
  end.

(** [{ now: at_time }] *)
Definition injected (at_time : Date) : option Metadata :=
  Some {| now := Some at_time |}.

(** One line per product identifier. *)
Definition linesUnique (lines : list PricedProductItem) : Prop :=
  NoDup (productId <$> lines).

(** The summary document that mirrors a decider state. *)
Definition summaryOf (state : ShoppingCart) : ShoppingCartSummary :=
  {| s_id := id state; s_customerId := customerId state;
     s_status := status state; s_items := items state;
     totalAmount := sumAmount (items state);
     totalItemsCount := sumQuantity (items state);
     s_openedAt := openedAt state;
     s_confirmedAt := confirmedAt state;
     s_cancelledAt := cancelledAt state |}.

(** Folding the customer projection over a cross-stream feed: each event
    comes with the id of the stream it was read from. *)
Fixpoint projectCustomer (document : option Customer.CustomerShoppingSummary)
    (feed : list (ShoppingCartEvent * string))
    : Result (option Customer.CustomerShoppingSummary) :=
  match feed with
  | [] => Ok document
  | (event, streamId) :: rest =>
      try! next :=
        Customer.evolveCustomerShoppingSummary document event streamId in
      projectCustomer next rest
  end.

(** The cart ids of the ShoppingCartOpened events of a feed, in order. *)
Fixpoint openedCartIds (feed : list (ShoppingCartEvent * string))
    : list string :=
  match feed with
  | [] => []
  | (ShoppingCartOpened cartId _ _, _) :: rest => cartId :: openedCartIds rest
  | _ :: rest => openedCartIds rest
  end.

(** The customer of the first ShoppingCartOpened event of a feed. *)
Fixpoint firstOpenedCustomer (feed : list (ShoppingCartEvent * string))
    : option string :=
  match feed with
  | [] => None
  | (ShoppingCartOpened _ customer _, _) :: _ => Some customer
  | _ :: rest => firstOpenedCustomer rest
  end.

(** Active, confirmed and cancelled carts add up to the carts counted. *)
Definition countsBalance (document : Customer.CustomerShoppingSummary) : Z :=
  Customer.activeCartsCount document + Customer.confirmedCartsCount document
  + Customer.cancelledCartsCount document - Customer.totalCarts document.

(** A memory holding the stream of a cart that was opened, filled and
    confirmed. *)
Definition closedMemory : SampleMemory :=
  [ ("cart-1",
     [ ShoppingCartOpened "cart-1" "customer-9" 0;
       ProductItemAddedToShoppingCart "cart-1" (productA 2 10) 1;
       ShoppingCartConfirmed "cart-1" 4 ]) ].

(** A reader of integer literals good enough for the samples. *)
Definition sampleParse (text : string) : Result Z :=
  if decide (text = "3") then Ok 3
  else Throw (GenericError ("Cannot convert " +:+ text +:+ " to a BigInt")).

(** What the listing makes of one directory entry: the cart of a readable
    [.json] file, the warning of an unreadable one, nothing for any other
    name. *)
Definition cartOfFile {FileSystem : Type}
    (readJson :
       FileSystem -> string -> Result (FileStore.JsonData ShoppingCartEvent))
    (dataDirectory : string) (files : FileSystem) (file : string)
    : option FileStore.CartSummary :=
  if Listing.endsWith file ".json" then
    match readJson files (Listing.joinPath dataDirectory file) with
    | Ok jsonData =>
        Some (FileStore.rebuildCart (FileStore.j_streamId jsonData)
                (FileStore.j_lastUpdated jsonData)
                (FileStore.r_event <$> FileStore.j_events jsonData))
    | Throw _ => None
    end
  else None.

Definition warningOfFile {FileSystem : Type}
    (readJson :
       FileSystem -> string -> Result (FileStore.JsonData ShoppingCartEvent))
    (dataDirectory : string) (files : FileSystem) (file : string)
    : option FileStore.Warning :=
  if Listing.endsWith file ".json" then
    match readJson files (Listing.joinPath dataDirectory file) with
    | Ok _ => None
    | Throw error =>
        Some {| FileStore.w_message := "Failed to process " +:+ file +:+ ":";
                FileStore.w_error := error |}
    end
  else None.

(** The stamp of the cart is a date. *)
Definition hasTime (timeOf : string -> option Z)
    (cart : FileStore.CartSummary) : Prop :=
  is_Some (timeOf (FileStore.cs_lastUpdated cart)).

(** Both stamps are dates and the first cart was updated no earlier than
    the second. *)
Definition notOlder (timeOf : string -> option Z)
    (first second : FileStore.CartSummary) : Prop :=
  match timeOf (FileStore.cs_lastUpdated first),
        timeOf (FileStore.cs_lastUpdated second) with
  | Some timeFirst, Some timeSecond => timeSecond <= timeFirst
  | _, _ => False
  end.

(** A disk for the samples: the newest write of a path is the one read,
    and the directory lists the one stream file. *)
Definition sampleReadJson (files : SampleDisk) (filePath : string)
    : Result (FileStore.JsonData ShoppingCartEvent) :=
  match List.find (fun entry => bool_decide (fst entry = filePath)) files with
  | Some entry => Ok (snd entry)
  | None => Throw (GenericError "ENOENT: no such file or directory")
  end.

Definition sampleReaddir (files : SampleDisk) (directory : string)
    : Result (list string) :=
  Ok [ "cart-1.json"; "notes.txt" ].

(** What a successful write of a path holds is what a later read of that
    path returns. *)
Definition readsBackWrites {FileSystem : Type}
    (writeFile :
       FileSystem -> string -> FileStore.JsonData ShoppingCartEvent ->
       FileSystem * Result unit)
    (readJson :
       FileSystem -> string -> Result (FileStore.JsonData ShoppingCartEvent))
    : Prop :=
  forall files filePath content written,
    writeFile files filePath content = (written, Ok tt) ->
    readJson written filePath = Ok content.

(** The world right after a restart: nothing in memory, one stream file on
    the disk, last updated in January. *)
Definition restartWorld : FileStore.World SampleMemory SampleDisk :=
  FileStore.mkWorld []
    [ ("./data/events/cart-1.json",
       {| FileStore.j_streamId := "cart-1";
          FileStore.j_events :=
            [ FileStore.mkReadEvent
                (ShoppingCartOpened "cart-1" "customer-9" 0)
                {| FileStore.streamPosition := 1;
                   FileStore.globalPosition := None |} ];
          FileStore.j_currentStreamVersion := 1;
          FileStore.j_lastUpdated := "2025-01-01T00:00:00.000Z" |}) ]
    [].

(** What the total of a cart becomes over a feed: to the total it had, the
    amount of each ProductItemAddedToShoppingCart event of the feed for that
    cart is added, unit price times quantity, in the order of the feed. *)
Fixpoint totalAfter (cartId : string) (total : float)
    (feed : list (ShoppingCartEvent * string)) : float :=
  match feed with
  | [] => total
  | (ProductItemAddedToShoppingCart added p _, _) :: rest =>
      if decide (added = cartId)
      then totalAfter cartId
             (total + unitPrice p * numberOfZ (quantity p))%float rest
      else totalAfter cartId total rest
  | _ :: rest => totalAfter cartId total rest
  end.

(** The states a cart goes through after a given one: each step is a
    command that decide accepts, whose event is folded by evolve. *)
Inductive laterThan (start : ShoppingCart) : ShoppingCart -> Prop :=
| later_same : laterThan start start
| later_command (wallClock : Date) (state next : ShoppingCart)
    (command : ShoppingCartCommand) (metadata : option Metadata)
    (event : ShoppingCartEvent) :
    laterThan start state ->
    Decider.decide wallClock command state metadata = Ok event ->
    Decider.evolve state event = Ok next ->
    laterThan start next.

(** * Properties *)

(** ** The list helpers never read outside the array *)

Section ListHelpers.
Context {A : Type} (P : A -> Prop) `{!forall x, Decision (P x)}.

Lemma findIndex_found (l : list A) (i : nat) (x : A) :
  list_find P l = Some (i, x) ->
  findIndex P l = Z.of_nat i /\ l !! i = Some x /\ P x.
Proof.
  intros Hfind. unfold findIndex. rewrite Hfind.
  apply list_find_Some in Hfind as (Hlook & HP & _). auto.
Qed.

Lemma findIndex_missing (l : list A) :
  list_find P l = None -> findIndex P l = -1 /\ Forall (fun x => ~ P x) l.
Proof.
  intros Hfind. unfold findIndex. rewrite Hfind.
  split; [reflexivity | by apply list_find_None in Hfind].
Qed.

Lemma find_found (l : list A) (i : nat) (x : A) :
  list_find P l = Some (i, x) -> find P l = Some x.
Proof. intros Hfind. unfold find. by rewrite Hfind. Qed.

Lemma find_missing (l : list A) : list_find P l = None -> find P l = None.
Proof. intros Hfind. unfold find. by rewrite Hfind. Qed.

Lemma at_found (l : list A) (i : nat) (x : A) :
  l !! i = Some x -> at_ l (Z.of_nat i) = Ok x.
Proof.
  intros Hlook. unfold at_.
  destruct (Z.ltb_spec (Z.of_nat i) 0) as [Hneg | _]; [lia |].
  by rewrite Nat2Z.id, Hlook.
Qed.

Lemma filterFrom_past (target : Z) (start : nat) (l : list A) :
  target < Z.of_nat start ->
  filterFrom (fun _ index => negb (Z.of_nat index =? target)) start l = l.
Proof.
  revert start. induction l as [| x l IH]; intros start Hlt; simpl; [done |].
  destruct (Z.eqb_spec (Z.of_nat start) target) as [Heq | _]; [lia |].
  simpl. f_equal. apply IH. lia.
Qed.

Lemma filterFrom_delete (k start : nat) (l : list A) :
  filterFrom (fun _ index => negb (Z.of_nat index =? Z.of_nat (start + k)))
             start l
  = delete k l.
Proof.
  revert k start. induction l as [| x l IH]; intros k start; simpl.
  - by destruct k.
  - destruct k as [| k].
    + rewrite Nat.add_0_r, Z.eqb_refl. simpl. apply filterFrom_past. lia.
    + destruct (Z.eqb_spec (Z.of_nat start) (Z.of_nat (start + S k)))
        as [Heq | _]; [lia |].
      simpl. f_equal.
      replace (start + S k)%nat with (S start + k)%nat by lia. apply IH.
Qed.

Lemma filterIndexed_delete (k : nat) (l : list A) :
  filterIndexed (fun _ index => negb (Z.of_nat index =? Z.of_nat k)) l
  = delete k l.
Proof. unfold filterIndexed. apply (filterFrom_delete k 0). Qed.

End ListHelpers.

(** ** The two list helpers of the decider *)

Lemma mergeProductItems_present lines p i x :
  list_find (fun item => productId item = productId p) lines = Some (i, x) ->
  Decider.mergeProductItems lines p
  = Ok (<[i := withQuantity x (quantity x + quantity p)]> lines).
Proof.
  intros Hfind. unfold Decider.mergeProductItems.
  destruct (findIndex_found _ _ _ _ Hfind) as (-> & Hlook & _).
  destruct (Z.leb_spec 0 (Z.of_nat i)) as [_ | Hneg]; [| lia].
  rewrite (at_found _ _ _ Hlook). simpl. unfold setAt. by rewrite Nat2Z.id.
Qed.

Lemma mergeProductItems_absent lines p :
  list_find (fun item => productId item = productId p) lines = None ->
  Decider.mergeProductItems lines p = Ok (lines ++ [p]).
Proof.
  intros Hfind. unfold Decider.mergeProductItems.
  destruct (findIndex_missing _ _ Hfind) as (-> & _). reflexivity.
Qed.

Lemma removeProductItems_present lines p i x :
  list_find (fun item => productId item = pi_productId p) lines = Some (i, x) ->
  Decider.removeProductItems lines p
  = Ok (if quantity x - pi_quantity p <=? 0 then delete i lines
        else <[i := withQuantity x (quantity x - pi_quantity p)]> lines).
Proof.
  intros Hfind. unfold Decider.removeProductItems.
  destruct (findIndex_found _ _ _ _ Hfind) as (-> & Hlook & _).
  destruct (Z.ltb_spec (Z.of_nat i) 0) as [Hneg | _]; [lia |].
  rewrite (at_found _ _ _ Hlook). simpl.
  destruct (quantity x - pi_quantity p <=? 0).
  - by rewrite filterIndexed_delete.
  - unfold setAt. by rewrite Nat2Z.id.
Qed.

Lemma removeProductItems_absent lines p :
  list_find (fun item => productId item = pi_productId p) lines = None ->
  Decider.removeProductItems lines p = Ok lines.
Proof.
  intros Hfind. unfold Decider.removeProductItems.
  destruct (findIndex_missing _ _ Hfind) as (-> & _). reflexivity.
Qed.

Lemma mergeProductItems_total lines p :
  exists merged, Decider.mergeProductItems lines p = Ok merged.
Proof.
  destruct (list_find (fun item => productId item = productId p) lines)
    as [[i x] |] eqn:Hfind.
  - eexists. by apply mergeProductItems_present.
  - eexists. by apply mergeProductItems_absent.
Qed.

Lemma removeProductItems_total lines p :
  exists remaining, Decider.removeProductItems lines p = Ok remaining.
Proof.
  destruct (list_find (fun item => productId item = pi_productId p) lines)
    as [[i x] |] eqn:Hfind.
  - eexists. by apply removeProductItems_present.
  - eexists. by apply removeProductItems_absent.
Qed.

Lemma withStateItems_same state : withStateItems state (items state) = state.
Proof. by destruct state. Qed.

Lemma evolve_returns state event :
  exists next, Decider.evolve state event = Ok next.
Proof.
  destruct event as [cartId customer t | cartId p t | cartId p t
                    | cartId t | cartId t | type]; simpl; eauto.
  - destruct (mergeProductItems_total (items state) p) as [merged ->].
    simpl. eauto.
  - destruct (removeProductItems_total (items state) p) as [remaining ->].
    simpl. eauto.
Qed.

(** C8. [evolve] is total: on every state and every event it returns a
    state and never throws; on an event whose type tag it does not recognise
    it returns the state it was given; and a
    [ProductItemRemovedFromShoppingCart] event for a product that is in no
    line of the cart leaves the state as it was. *)
Theorem evolve_total_and_neutral :
  (forall state event, exists next, Decider.evolve state event = Ok next) /\
  (forall state type, Decider.evolve state (UnrecognizedEvent type) = Ok state) /\
  (forall state cartId p removedAt,
     Forall (fun item => productId item <> pi_productId p) (items state) ->
     Decider.evolve state (ProductItemRemovedFromShoppingCart cartId p removedAt)
     = Ok state).
Proof.
  split; [| split].
  - apply evolve_returns.
  - reflexivity.
  - intros state cartId p t Hnone. simpl.
    rewrite removeProductItems_absent by by apply list_find_None.
    simpl. f_equal. apply withStateItems_same.
Qed.

Lemma evolve_total_and_neutral_witness :
  Decider.evolve sampleCart
    (ProductItemRemovedFromShoppingCart "cart-1"
       (mkProductItem "productB" "Product B" 1) 5)
  = Ok sampleCart.
Proof.
  apply (proj2 (proj2 evolve_total_and_neutral) sampleCart "cart-1"
           (mkProductItem "productB" "Product B" 1) 5).
  repeat constructor. simpl. discriminate.
Defined.

(** ** Adding and removing product items *)

Lemma list_find_first {A} (P : A -> Prop) `{!forall x, Decision (P x)}
    (l : list A) (i : nat) (x : A) :
  l !! i = Some x -> P x ->
  (forall j y, l !! j = Some y -> (j < i)%nat -> ~ P y) ->
  list_find P l = Some (i, x).
Proof. intros. apply list_find_Some. auto. Qed.

(** C7. Adding a product to an Opened cart is accepted and merges by
    product identifier: when a line with the same productId is present, the
    first such line has its quantity increased by the added quantity and
    keeps its unit price; when there is none, the added item becomes a new
    last line.  After Open, Add(productA, 2, 10.0), Add(productA, 1) the cart
    holds the single line productA with quantity 3, and the summary
    projection of the three events holds that line with total 30.0. *)
Theorem add_merges_by_productId :
  (forall wallClock state cartId p metadata,
     status state = Opened ->
     let event := ProductItemAddedToShoppingCart cartId p
                    (Decider.nowOr wallClock metadata) in
     Decider.decide wallClock (AddProductItemToShoppingCart cartId p)
       state metadata = Ok event /\
     (forall i x,
        items state !! i = Some x -> productId x = productId p ->
        (forall j y, items state !! j = Some y -> (j < i)%nat ->
                     productId y <> productId p) ->
        Decider.evolve state event
        = Ok (withStateItems state
                (<[i := withQuantity x (quantity x + quantity p)]>
                   (items state))) /\
        unitPrice (withQuantity x (quantity x + quantity p)) = unitPrice x) /\
     (Forall (fun item => productId item <> productId p) (items state) ->
      Decider.evolve state event
      = Ok (withStateItems state (items state ++ [p])))) /\
  (forall wallClock metadata name2 price2,
     exists state stream document,
       issue wallClock metadata (Decider.initialState wallClock)
         [ OpenShoppingCart "cart-1" "customer-9";
           AddProductItemToShoppingCart "cart-1" (productA 2 10);
           AddProductItemToShoppingCart "cart-1"
             (mkPriced "productA" name2 1 price2) ]
       = Ok (state, stream) /\
       items state = [ productA 3 10 ] /\
       Summary.project None stream = Ok (Some document) /\
       s_items document = [ productA 3 10 ] /\
       totalAmount document = numberOfZ 30 /\
       (unitPrice (productA 3 10) * numberOfZ (quantity (productA 3 10)))%float
       = numberOfZ 30).
Proof.
  split.
  - intros wallClock state cartId p metadata Hopen event. subst event.
    split; [| split].
    + simpl. unfold Decider.addProductItem.
      destruct (decide (status state <> Opened)) as [Hne | _]; [done |].
      reflexivity.
    + intros i x Hlook Hsame Hfirst. split; [| reflexivity]. simpl.
      rewrite (mergeProductItems_present _ _ i x); [reflexivity |].
      by apply list_find_first.
    + intros Habsent. simpl.
      rewrite mergeProductItems_absent by by apply list_find_None.
      reflexivity.
  - intros wallClock metadata name2 price2.
    eexists _, _, _. split; [reflexivity |].
    split; [reflexivity |]. split; [reflexivity |].
    split; [reflexivity |]. split; reflexivity.
Qed.

Lemma add_merges_by_productId_witness :
  Decider.decide 7 (AddProductItemToShoppingCart "cart-1" (productA 1 10))
    sampleCart None
  = Ok (ProductItemAddedToShoppingCart "cart-1" (productA 1 10) 7) /\
  Decider.evolve sampleCart
    (ProductItemAddedToShoppingCart "cart-1" (productA 1 10) 7)
  = Ok (withStateItems sampleCart [ productA 3 10 ]).
Proof.
  destruct (proj1 add_merges_by_productId 7 sampleCart "cart-1"
              (productA 1 10) None eq_refl) as (Hdecide & Hpresent & _).
  split; [exact Hdecide |].
  apply (Hpresent 0%nat (productA 2 10)); [reflexivity | reflexivity |].
  intros j y _ Hlt. lia.
Defined.

(** C6. On an Opened state, a RemoveProductItemFromShoppingCart command is
    rejected with IllegalState when no line has the requested productId, and
    when the requested quantity exceeds the quantity of the (first) line with
    that productId; otherwise decide produces the
    ProductItemRemovedFromShoppingCart event, and folding it subtracts the
    requested quantity from that line, dropping the line when the result is
    zero or less. *)
Theorem remove_semantics wallClock state cartId p metadata :
  status state = Opened ->
  let command := RemoveProductItemFromShoppingCart cartId p in
  let event := ProductItemRemovedFromShoppingCart cartId p
                 (Decider.nowOr wallClock metadata) in
  (Forall (fun item => productId item <> pi_productId p) (items state) ->
   isIllegalState (Decider.decide wallClock command state metadata)) /\
  (forall i x,
     items state !! i = Some x -> productId x = pi_productId p ->
     (forall j y, items state !! j = Some y -> (j < i)%nat ->
                  productId y <> pi_productId p) ->
     (quantity x < pi_quantity p ->
      isIllegalState (Decider.decide wallClock command state metadata)) /\
     (pi_quantity p <= quantity x ->
      Decider.decide wallClock command state metadata = Ok event /\
      Decider.evolve state event
      = Ok (withStateItems state
              (if decide (quantity x - pi_quantity p <= 0)
               then delete i (items state)
               else <[i := withQuantity x (quantity x - pi_quantity p)]>
                      (items state))))).
Proof.
  intros Hopen command event. subst command event. split.
  - intros Habsent. simpl. unfold Decider.removeProductItem.
    destruct (decide (status state <> Opened)) as [Hne | _]; [done |].
    rewrite find_missing by by apply list_find_None.
    eexists. reflexivity.
  - intros i x Hlook Hsame Hfirst.
    assert (Hfind : list_find (fun item => productId item = pi_productId p)
                      (items state) = Some (i, x))
      by by apply list_find_first.
    split.
    + intros Hmore. simpl. unfold Decider.removeProductItem.
      destruct (decide (status state <> Opened)) as [Hne | _]; [done |].
      rewrite (find_found _ _ _ _ Hfind).
      destruct (Z.ltb_spec (quantity x) (pi_quantity p)); [| lia].
      eexists. reflexivity.
    + intros Henough. split.
      * simpl. unfold Decider.removeProductItem.
        destruct (decide (status state <> Opened)) as [Hne | _]; [done |].
        rewrite (find_found _ _ _ _ Hfind).
        destruct (Z.ltb_spec (quantity x) (pi_quantity p)); [lia |].
        reflexivity.
      * simpl. rewrite (removeProductItems_present _ _ _ _ Hfind). simpl.
        destruct (Z.leb_spec (quantity x - pi_quantity p) 0);
          destruct (decide (quantity x - pi_quantity p <= 0));
          try lia; reflexivity.
Qed.

Lemma remove_semantics_witness :
  Decider.decide 7
    (RemoveProductItemFromShoppingCart "cart-1"
       (mkProductItem "productA" "Product A" 2)) sampleCart None
  = Ok (ProductItemRemovedFromShoppingCart "cart-1"
          (mkProductItem "productA" "Product A" 2) 7) /\
  Decider.evolve sampleCart
    (ProductItemRemovedFromShoppingCart "cart-1"
       (mkProductItem "productA" "Product A" 2) 7)
  = Ok (withStateItems sampleCart []).
Proof.
  destruct (remove_semantics 7 sampleCart "cart-1"
              (mkProductItem "productA" "Product A" 2) None eq_refl)
    as (_ & Hpresent).
  destruct (Hpresent 0%nat (productA 2 10) eq_refl eq_refl) as (_ & Hok).
  - intros j y _ Hlt. lia.
  - apply Hok. simpl. lia.
Defined.

(** ** What [decide] does on the initial and on terminal states *)

(** The event [decide] returns is the one belonging to the command. *)
Lemma decide_event wallClock command state metadata event :
  Decider.decide wallClock command state metadata = Ok event ->
  let at_time := Decider.nowOr wallClock metadata in
  match command with
  | OpenShoppingCart cartId customer =>
      event = ShoppingCartOpened cartId customer at_time
  | AddProductItemToShoppingCart cartId p =>
      event = ProductItemAddedToShoppingCart cartId p at_time
  | RemoveProductItemFromShoppingCart cartId p =>
      event = ProductItemRemovedFromShoppingCart cartId p at_time
  | ConfirmShoppingCart cartId => event = ShoppingCartConfirmed cartId at_time
  | CancelShoppingCart cartId => event = ShoppingCartCancelled cartId at_time
  | UnknownCommand _ => False
  end.
Proof.
  destruct command; simpl;
    unfold Decider.openShoppingCart, Decider.addProductItem,
      Decider.removeProductItem, Decider.confirmShoppingCart,
      Decider.cancelShoppingCart;
    repeat case_match; congruence.
Qed.

(** C2. On the initial state (id empty, status Opened, no items) decide
    accepts AddProductItemToShoppingCart and CancelShoppingCart and returns
    their events, where the claim demands an IllegalState rejection; only
    RemoveProductItemFromShoppingCart and ConfirmShoppingCart are rejected
    with IllegalState there. *)
Theorem initial_state_decisions wallClock cartId p q metadata :
  let initial := Decider.initialState wallClock in
  let at_time := Decider.nowOr wallClock metadata in
  Decider.decide wallClock (AddProductItemToShoppingCart cartId p)
    initial metadata
  = Ok (ProductItemAddedToShoppingCart cartId p at_time) /\
  Decider.decide wallClock (CancelShoppingCart cartId) initial metadata
  = Ok (ShoppingCartCancelled cartId at_time) /\
  isIllegalState
    (Decider.decide wallClock (RemoveProductItemFromShoppingCart cartId q)
       initial metadata) /\
  isIllegalState
    (Decider.decide wallClock (ConfirmShoppingCart cartId) initial metadata).
Proof.
  repeat split; try reflexivity; eexists; reflexivity.
Qed.

(** C5. The code departs from the claim: CancelShoppingCart is accepted on
    the initial state (the defect of C2), the Cancelled state it leads to
    still has the empty id, and on that terminal state OpenShoppingCart is
    accepted and returns its event where the claim demands an IllegalState
    rejection. *)
Lemma terminal_state_accepts_open :
  reachable cancelledUnopened /\
  terminal cancelledUnopened /\
  knownCommand (OpenShoppingCart "cart-2" "customer-9") /\
  Decider.decide 9 (OpenShoppingCart "cart-2" "customer-9")
    cancelledUnopened None
  = Ok (ShoppingCartOpened "cart-2" "customer-9" 9) /\
  ~ isIllegalState
      (Decider.decide 9 (OpenShoppingCart "cart-2" "customer-9")
         cancelledUnopened None).
Proof.
  split; [| split; [| split; [| split]]].
  - apply (reach_command _ 3 (Decider.initialState 0) _
             (CancelShoppingCart "cart-1") None
             (ShoppingCartCancelled "cart-1" 3)).
    + apply reach_initial.
    + exact I.
    + reflexivity.
    + reflexivity.
  - right. reflexivity.
  - exact I.
  - reflexivity.
  - intros [message Hthrow]. discriminate Hthrow.
Qed.

(** Where the claim holds: on a state with status Confirmed or Cancelled,
    decide rejects AddProductItemToShoppingCart,
    RemoveProductItemFromShoppingCart, ConfirmShoppingCart and
    CancelShoppingCart with IllegalState, and rejects OpenShoppingCart with
    IllegalState when the cart was opened under an id that is not empty. *)
Lemma terminal_state_rejects wallClock state command metadata :
  terminal state ->
  knownCommand command ->
  (isOpenCommand command -> id state <> "") ->
  isIllegalState (Decider.decide wallClock command state metadata) /\
  (forall event,
     Decider.decide wallClock command state metadata <> Ok event).
Proof.
  intros Hterminal Hknown Hid.
  assert (Hclosed : status state <> Opened)
    by (destruct Hterminal as [-> | ->]; discriminate).
  assert (Hreject :
    isIllegalState (Decider.decide wallClock command state metadata)).
  { destruct command; simpl in *;
      unfold Decider.openShoppingCart, Decider.addProductItem,
        Decider.removeProductItem, Decider.confirmShoppingCart,
        Decider.cancelShoppingCart.
    - destruct (decide (id state <> "")) as [_ | Hempty];
        [eexists; reflexivity | destruct Hempty; auto].
    - destruct (decide (status state <> Opened)); [eexists; reflexivity | done].
    - destruct (decide (status state <> Opened)); [eexists; reflexivity | done].
    - destruct (decide (status state <> Opened)); [eexists; reflexivity | done].
    - destruct (decide (status state <> Opened)); [eexists; reflexivity | done].
    - done. }
  split; [exact Hreject |].
  intros event Hok. destruct Hreject as [message Hthrow]. congruence.
Qed.

Lemma terminal_state_rejects_witness :
  isIllegalState
    (Decider.decide 9 (OpenShoppingCart "cart-1" "customer-9")
       confirmedCart None).
Proof.
  apply (terminal_state_rejects 9 confirmedCart
           (OpenShoppingCart "cart-1" "customer-9") None).
  - left. reflexivity.
  - exact I.
  - intros _. simpl. discriminate.
Defined.

(** ** The quantity invariant *)

Lemma mergeProductItems_positive lines p merged :
  quantitiesPositive lines -> 0 < quantity p ->
  Decider.mergeProductItems lines p = Ok merged ->
  quantitiesPositive merged.
Proof.
  unfold quantitiesPositive. intros Hlines Hp Hmerge.
  destruct (list_find (fun item => productId item = productId p) lines)
    as [[i x] |] eqn:Hfind.
  - rewrite (mergeProductItems_present _ _ _ _ Hfind) in Hmerge.
    injection Hmerge as <-. apply Forall_insert; [done |].
    apply list_find_Some in Hfind as (Hlook & _).
    pose proof (proj1 (Forall_lookup _ _) Hlines i x Hlook) as Hx.
    simpl in *. lia.
  - rewrite (mergeProductItems_absent _ _ Hfind) in Hmerge.
    injection Hmerge as <-. apply Forall_app. split; [done |].
    by constructor.
Qed.

Lemma removeProductItems_positive lines p remaining :
  quantitiesPositive lines ->
  Decider.removeProductItems lines p = Ok remaining ->
  quantitiesPositive remaining.
Proof.
  unfold quantitiesPositive. intros Hlines Hremove.
  destruct (list_find (fun item => productId item = pi_productId p) lines)
    as [[i x] |] eqn:Hfind.
  - rewrite (removeProductItems_present _ _ _ _ Hfind) in Hremove.
    injection Hremove as <-.
    destruct (Z.leb_spec (quantity x - pi_quantity p) 0).
    + by apply Forall_delete.
    + apply Forall_insert; [done | simpl; lia].
  - rewrite (removeProductItems_absent _ _ Hfind) in Hremove.
    by injection Hremove as <-.
Qed.

(** C3, as stated, fails: adding zero units is accepted, and the Opened
    state that results holds a line with quantity 0. *)
Lemma zero_quantity_reachable :
  reachable (withStateItems sampleCart [ productA 0 10 ]) /\
  status (withStateItems sampleCart [ productA 0 10 ]) = Opened /\
  ~ quantitiesPositive (items (withStateItems sampleCart [ productA 0 10 ])).
Proof.
  split; [| split].
  - apply (reach_command _ 0 (withStateItems sampleCart []) _
             (AddProductItemToShoppingCart "cart-1" (productA 0 10)) None
             (ProductItemAddedToShoppingCart "cart-1" (productA 0 10) 0)).
    + apply (reach_command _ 0 (Decider.initialState 0) _
               (OpenShoppingCart "cart-1" "customer-9") None
               (ShoppingCartOpened "cart-1" "customer-9" 0)).
      * apply reach_initial.
      * exact I.
      * reflexivity.
      * reflexivity.
    + exact I.
    + reflexivity.
    + reflexivity.
  - reflexivity.
  - intros Hpositive. inversion Hpositive as [| item rest Hitem _].
    simpl in Hitem. lia.
Qed.

(** C3 (amended). In every state reachable from the initial state by
    commands that decide accepts and whose AddProductItemToShoppingCart
    commands carry a quantity greater than 0, every line of the items list
    has a quantity greater than 0. *)
Theorem reachable_quantities_positive state :
  reachableVia addsPositive state ->
  quantitiesPositive (items state).
Proof.
  induction 1 as [wallClock
                 | wallClock state next command metadata event
                     Hreach IH Hadmitted Hdecide Hevolve].
  - constructor.
  - apply decide_event in Hdecide. simpl in Hdecide.
    destruct command; try done; subst event; simpl in Hevolve.
    + injection Hevolve as <-. constructor.
    + destruct (Decider.mergeProductItems (items state) productItem)
        as [merged |] eqn:Hmerge; [| discriminate].
      injection Hevolve as <-. simpl.
      by eapply mergeProductItems_positive.
    + destruct (Decider.removeProductItems (items state) productItem)
        as [remaining |] eqn:Hremove; [| discriminate].
      injection Hevolve as <-. simpl.
      by eapply removeProductItems_positive.
    + by injection Hevolve as <-.
    + by injection Hevolve as <-.
Qed.

Lemma reachable_quantities_positive_witness :
  quantitiesPositive (items sampleCart).
Proof.
  apply (reachable_quantities_positive sampleCart).
  apply (reach_command _ 0 (withStateItems sampleCart []) _
           (AddProductItemToShoppingCart "cart-1" (productA 2 10)) None
           (ProductItemAddedToShoppingCart "cart-1" (productA 2 10) 0)).
  - apply (reach_command _ 0 (Decider.initialState 0) _
             (OpenShoppingCart "cart-1" "customer-9") None
             (ShoppingCartOpened "cart-1" "customer-9" 0)).
    + apply reach_initial.
    + exact I.
    + reflexivity.
    + reflexivity.
  - simpl. lia.
  - reflexivity.
  - reflexivity.
Defined.

(** ** The customer projection and carts it does not track *)

(** The branches that look the cart up return the document they were given
    when the cart is not among [document.carts]. *)
Lemma customer_ignores_untracked document event streamId :
  match event with
  | ProductItemAddedToShoppingCart cartId _ _
  | ShoppingCartConfirmed cartId _
  | ShoppingCartCancelled cartId _ =>
      untracked cartId document ->
      Customer.evolveCustomerShoppingSummary (Some document) event streamId
      = Ok (Some document)
  | _ => True
  end.
Proof.
  destruct event as [| cartId p t | | cartId t | cartId t |]; try exact I;
    intros Huntracked; simpl;
    destruct (findIndex_missing (fun cart => Customer.e_id cart = cartId)
                (Customer.carts document)) as (-> & _);
    try reflexivity; by apply list_find_None.
Qed.

(** C4. The ProductItemRemovedFromShoppingCart branch does no lookup: for
    every document and every cart id, tracked or not, it returns the document
    with lastActivityAt replaced by the event's removedAt.  On the sample
    document, which does not track cart-7, the result differs from the
    document in lastActivityAt, where the claim demands the document
    unchanged. *)
Theorem customer_removed_overwrites_last_activity :
  (forall document cartId p removedAt streamId,
     Customer.evolveCustomerShoppingSummary (Some document)
       (ProductItemRemovedFromShoppingCart cartId p removedAt) streamId
     = Ok (Some (withLastActivity document removedAt))) /\
  untracked "cart-7" sampleCustomer /\
  Customer.evolveCustomerShoppingSummary (Some sampleCustomer)
    (ProductItemRemovedFromShoppingCart "cart-7"
       (mkProductItem "productA" "Product A" 1) 200) "cart-7"
  = Ok (Some (withLastActivity sampleCustomer 200)) /\
  Customer.lastActivityAt (withLastActivity sampleCustomer 200)
  <> Customer.lastActivityAt sampleCustomer.
Proof.
  split; [reflexivity |]. split; [| split; [reflexivity |]].
  - repeat constructor. simpl. discriminate.
  - simpl. lia.
Qed.

(** ** The totals of the cart summary projection *)

Lemma summary_merge_is_decider_merge lines p :
  Summary.mergeProductItems lines p = Decider.mergeProductItems lines p.
Proof. reflexivity. Qed.

Lemma summary_remove_is_decider_remove lines p :
  Summary.removeProductItems lines p = Decider.removeProductItems lines p.
Proof. reflexivity. Qed.

Lemma calculateTotals_from (lines : list PricedProductItem) (start : Summary.Totals) :
  fold_left
    (fun totals item =>
       {| Summary.t_totalAmount :=
            (Summary.t_totalAmount totals
             + unitPrice item * numberOfZ (quantity item))%float;
          Summary.t_totalItemsCount :=
            Summary.t_totalItemsCount totals + quantity item |})
    lines start
  = {| Summary.t_totalAmount :=
         amountFrom (Summary.t_totalAmount start) lines;
       Summary.t_totalItemsCount :=
         Summary.t_totalItemsCount start + sumQuantity lines |}.
Proof.
  revert start. induction lines as [| item rest IH]; intros start; simpl.
  - destruct start as [amount count]. simpl. f_equal. lia.
  - rewrite IH. simpl. f_equal. lia.
Qed.

Lemma calculateTotals_sums lines :
  Summary.calculateTotals lines
  = {| Summary.t_totalAmount := sumAmount lines;
       Summary.t_totalItemsCount := sumQuantity lines |}.
Proof.
  unfold Summary.calculateTotals. rewrite calculateTotals_from. reflexivity.
Qed.

(** The totals are the program's numbers: seven units at 29.99 come to
    209.92999999999998, and three catalogue lines add up, from the first to
    the last, to 119.96000000000001. *)
Example calculateTotals_in_binary64 :
  Summary.calculateTotals [ mkPriced "product-001" "Laptop" 7 29.99 ]
  = {| Summary.t_totalAmount := 209.92999999999998;
       Summary.t_totalItemsCount := 7 |} /\
  Summary.calculateTotals
    [ mkPriced "product-001" "Laptop" 1 29.99;
      mkPriced "product-002" "Mouse" 1 49.99;
      mkPriced "product-003" "Cable" 2 19.99 ]
  = {| Summary.t_totalAmount := 119.96000000000001;
       Summary.t_totalItemsCount := 4 |}.
Proof. split; reflexivity. Qed.

Lemma evolveShoppingCartSummary_total document event :
  exists next, Summary.evolveShoppingCartSummary document event = Ok next.
Proof.
  destruct event as [cartId customer t | cartId p t | cartId p t
                    | cartId t | cartId t | type];
    destruct document as [d |]; simpl; eauto.
  - rewrite summary_merge_is_decider_merge.
    destruct (mergeProductItems_total (s_items d) p) as [merged ->].
    simpl. eauto.
  - rewrite summary_remove_is_decider_remove.
    destruct (removeProductItems_total (s_items d) p) as [remaining ->].
    simpl. eauto.
Qed.

Lemma evolveShoppingCartSummary_consistent document event next :
  totalsConsistentOpt document ->
  Summary.evolveShoppingCartSummary document event = Ok next ->
  totalsConsistentOpt next.
Proof.
  intros Hdoc Hstep.
  destruct event as [cartId customer t | cartId p t | cartId p t
                    | cartId t | cartId t | type];
    destruct document as [d |]; simpl in Hstep;
    try (injection Hstep as <-; simpl; first [exact I | exact Hdoc | by split]).
  - destruct (Summary.mergeProductItems (s_items d) p) as [merged |];
      [| discriminate].
    injection Hstep as <-. simpl. unfold totalsConsistent. simpl.
    rewrite calculateTotals_sums. by split.
  - destruct (Summary.removeProductItems (s_items d) p) as [remaining |];
      [| discriminate].
    injection Hstep as <-. simpl. unfold totalsConsistent. simpl.
    rewrite calculateTotals_sums. by split.
Qed.

(** C9. Folding evolveShoppingCartSummary over any sequence of events,
    starting from null, never fails, and every non-null document it yields
    has totalAmount equal to the sum over its items of unitPrice times
    quantity, taken in the program's binary64 arithmetic from the first item
    to the last, and totalItemsCount equal to the sum over its items of
    quantity; every single fold step returns a result and preserves this
    invariant. *)
Theorem summary_totals_invariant :
  (forall stream,
     exists final,
       Summary.project None stream = Ok final /\
       forall document, final = Some document -> totalsConsistent document) /\
  (forall document event,
     exists next,
       Summary.evolveShoppingCartSummary document event = Ok next /\
       (totalsConsistentOpt document -> totalsConsistentOpt next)).
Proof.
  assert (Hstep : forall document event,
    exists next,
      Summary.evolveShoppingCartSummary document event = Ok next /\
      (totalsConsistentOpt document -> totalsConsistentOpt next)).
  { intros document event.
    destruct (evolveShoppingCartSummary_total document event) as [next Hnext].
    exists next. split; [exact Hnext |].
    intros Hdoc. by eapply evolveShoppingCartSummary_consistent. }
  split; [| exact Hstep].
  assert (Hfold : forall stream start,
    totalsConsistentOpt start ->
    exists final,
      Summary.project start stream = Ok final /\ totalsConsistentOpt final).
  { induction stream as [| event rest IH]; intros start Hstart; simpl.
    - eauto.
    - destruct (Hstep start event) as (next & -> & Hnext). simpl.
      apply IH. auto. }
  intros stream. destruct (Hfold stream None I) as (final & Hfinal & Hcons).
  exists final. split; [exact Hfinal |].
  intros document ->. exact Hcons.
Qed.

Lemma summary_totals_invariant_witness :
  exists final,
    Summary.project None
      [ ShoppingCartOpened "cart-1" "customer-9" 0;
        ProductItemAddedToShoppingCart "cart-1" (productA 2 10) 1;
        ShoppingCartConfirmed "cart-1" 2 ]
    = Ok final /\
    forall document, final = Some document -> totalsConsistent document.
Proof.
  exact (proj1 summary_totals_invariant
           [ ShoppingCartOpened "cart-1" "customer-9" 0;
             ProductItemAddedToShoppingCart "cart-1" (productA 2 10) 1;
             ShoppingCartConfirmed "cart-1" 2 ]).
Defined.

(** ** The fold of [getAllCarts] against [evolve] *)

Section Keys.
Context {A : Type} (key : A -> string).

Lemma filter_all (P : A -> Prop) `{!forall x, Decision (P x)} (l : list A) :
  Forall P l -> filter P l = l.
Proof.
  induction 1 as [| x l Hx _ IH]; [done |].
  rewrite filter_cons_True by done. by rewrite IH.
Qed.

Lemma filter_other_keys (l : list A) (i : nat) (x x' : A) :
  NoDup (key <$> l) -> l !! i = Some x -> key x' = key x ->
  filter (fun y => key y <> key x) (<[i := x']> l) = delete i l.
Proof.
  revert i. induction l as [| y l IH]; intros [| i] Hnodup Hlook Hkey;
    simplify_eq/=;
    pose proof (NoDup_cons_1_1 _ _ Hnodup) as Hfresh;
    apply NoDup_cons_1_2 in Hnodup.
  - rewrite filter_cons_False by (simpl; intros Hne; by apply Hne).
    apply filter_all, Forall_forall. intros z Hz Hsame.
    apply Hfresh. rewrite <- Hsame. by apply list_elem_of_fmap_2.
  - rewrite filter_cons_True.
    + f_equal. by apply IH.
    + intros Hsame. apply Hfresh. rewrite Hsame.
      apply list_elem_of_fmap_2. by eapply list_elem_of_lookup_2.
Qed.

Lemma keys_insert_same (l : list A) (i : nat) (x x' : A) :
  l !! i = Some x -> key x' = key x -> key <$> <[i := x']> l = key <$> l.
Proof.
  intros Hlook Hkey. rewrite list_fmap_insert, Hkey.
  apply list_insert_id. by rewrite list_lookup_fmap, Hlook.
Qed.

Lemma keys_delete_nodup (l : list A) (i : nat) :
  NoDup (key <$> l) -> NoDup (key <$> delete i l).
Proof.
  intros Hnodup. rewrite list_fmap_delete.
  by eapply sublist_NoDup; [| apply sublist_delete].
Qed.

Lemma keys_snoc_nodup (l : list A) (x : A) :
  NoDup (key <$> l) -> Forall (fun y => key y <> key x) l ->
  NoDup (key <$> l ++ [x]).
Proof.
  intros Hnodup Hfresh. rewrite fmap_app. apply NoDup_app.
  split; [done |]. split; [| apply NoDup_singleton].
  intros k Hk Hin. apply list_elem_of_fmap in Hk as (y & -> & Hy).
  apply list_elem_of_singleton in Hin.
  by apply (proj1 (Forall_forall _ _) Hfresh y).
Qed.

End Keys.

Lemma cart_find_lines pid (lines : list PricedProductItem) :
  list_find (fun item => FileStore.ci_productId item = pid)
            (toCartItem <$> lines)
  = prod_map Datatypes.id toCartItem
      <$> list_find (fun item => productId item = pid) lines.
Proof. apply (list_find_fmap toCartItem). Qed.

Lemma agree_step state cart event :
  agree state cart ->
  isOpenedEvent event = false ->
  exists next,
    Decider.evolve state event = Ok next /\
    agree next (FileStore.processEvent cart event).
Proof.
  intros (Hitems & Hstatus & Hnodup) Hevent.
  destruct event as [cartId customer t | cartId p t | cartId p t
                    | cartId t | cartId t | type]; [discriminate | ..].
  - (* added *)
    simpl. rewrite Hitems, cart_find_lines.
    destruct (list_find (fun item => productId item = productId p)
                (items state)) as [[i x] |] eqn:Hfind.
    + rewrite (mergeProductItems_present _ _ _ _ Hfind). simpl.
      eexists. split; [reflexivity |].
      pose proof Hfind as (Hlook & Hsame & _)%list_find_Some.
      split; [| split]; simpl.
      * by rewrite list_fmap_insert.
      * done.
      * by rewrite (keys_insert_same productId _ i x).
    + rewrite (mergeProductItems_absent _ _ Hfind). simpl.
      eexists. split; [reflexivity |].
      split; [| split]; simpl.
      * by rewrite fmap_app.
      * done.
      * apply keys_snoc_nodup; [done | by apply list_find_None in Hfind].
  - (* removed *)
    simpl. rewrite Hitems, cart_find_lines.
    destruct (list_find (fun item => productId item = pi_productId p)
                (items state)) as [[i x] |] eqn:Hfind.
    + rewrite (removeProductItems_present _ _ _ _ Hfind). simpl.
      pose proof Hfind as (Hlook & Hsame & _)%list_find_Some.
      eexists. split; [reflexivity |].
      destruct (quantity x - pi_quantity p <=? 0); split; try split; simpl;
        try done.
      * rewrite <- Hsame.
        rewrite (filter_other_keys FileStore.ci_productId
                   (toCartItem <$> items state) i (toCartItem x)).
        -- by rewrite list_fmap_delete.
        -- by rewrite <- list_fmap_compose.
        -- by rewrite list_lookup_fmap, Hlook.
        -- reflexivity.
      * by apply keys_delete_nodup.
      * by rewrite list_fmap_insert.
      * by rewrite (keys_insert_same productId _ i x).
    + rewrite (removeProductItems_absent _ _ Hfind). simpl.
      eexists. split; [reflexivity |]. by split.
  - simpl. eexists. split; [reflexivity |]. by split.
  - simpl. eexists. split; [reflexivity |]. by split.
  - simpl. eexists. split; [reflexivity |]. by split.
Qed.

Lemma agree_opened state cart cartId customer t :
  agree state cart -> items state = [] ->
  exists next,
    Decider.evolve state (ShoppingCartOpened cartId customer t) = Ok next /\
    agree next
      (FileStore.processEvent cart (ShoppingCartOpened cartId customer t)).
Proof.
  intros (Hitems & _ & _) Hempty. simpl. eexists. split; [reflexivity |].
  split; [| split]; simpl.
  - by rewrite Hitems, Hempty.
  - reflexivity.
  - constructor.
Qed.

Lemma agree_fold stream state cart :
  agree state cart ->
  Forall (fun event => isOpenedEvent event = false) stream ->
  exists final,
    Decider.replay state stream = Ok final /\
    agree final (fold_left FileStore.processEvent stream cart).
Proof.
  revert state cart.
  induction stream as [| event rest IH]; intros state cart Hagree Hstream.
  - simpl. eauto.
  - apply Forall_cons in Hstream as [Hevent Hrest]. simpl.
    destruct (agree_step state cart event Hagree Hevent)
      as (next & -> & Hnext).
    simpl. by apply IH.
Qed.

(** C10, as stated, fails: when an item is added before the cart is opened,
    evolve empties the items list at ShoppingCartOpened while the fold of
    getAllCarts keeps the line. *)
Lemma rebuildCart_differs_from_replay :
  exists final,
    Decider.replay (Decider.initialState 0) addedBeforeOpened = Ok final /\
    items final = [] /\
    FileStore.cs_items
      (FileStore.rebuildCart "cart-1" "2025-01-01T00:00:00.000Z"
         addedBeforeOpened)
    = [ toCartItem (productA 2 10) ] /\
    FileStore.cs_items
      (FileStore.rebuildCart "cart-1" "2025-01-01T00:00:00.000Z"
         addedBeforeOpened)
    <> toCartItem <$> items final.
Proof.
  eexists. split; [reflexivity |]. split; [reflexivity |].
  split; [reflexivity | discriminate].
Qed.

Lemma rebuildCart_lines_agree wallClock streamId lastUpdated stream :
  openedOnlyFirst stream ->
  exists final,
    Decider.replay (Decider.initialState wallClock) stream = Ok final /\
    FileStore.cs_items (FileStore.rebuildCart streamId lastUpdated stream)
    = toCartItem <$> items final.
Proof.
  intros Hstream. unfold FileStore.rebuildCart.
  set (start := FileStore.emptyCartSummary streamId lastUpdated (length stream)).
  assert (Hstart : agree (Decider.initialState wallClock) start).
  { split; [reflexivity |]. split; [reflexivity |]. constructor. }
  clearbody start.
  destruct stream as [| event rest].
  - exists (Decider.initialState wallClock).
    destruct Hstart as (? & _). by split.
  - simpl in Hstream.
    assert (Hfirst : exists next,
      Decider.evolve (Decider.initialState wallClock) event = Ok next /\
      agree next (FileStore.processEvent start event)).
    { destruct (isOpenedEvent event) eqn:Hevent.
      - destruct event; try discriminate. by apply agree_opened.
      - by apply agree_step. }
    destruct Hfirst as (next & Hevolve & Hnext).
    destruct (agree_fold rest next _ Hnext Hstream)
      as (final & Hreplay & Hitems & _).
    exists final. cbn [Decider.replay fold_left].
    rewrite Hevolve. simpl. by split.
Qed.

Lemma status_step state cart event next :
  FileStore.cs_status cart = status state ->
  Decider.evolve state event = Ok next ->
  FileStore.cs_status (FileStore.processEvent cart event) = status next.
Proof.
  intros Hstatus Hevolve.
  destruct event as [cartId customer t | cartId p t | cartId p t
                    | cartId t | cartId t | type]; simpl in Hevolve.
  - by injection Hevolve as <-.
  - destruct (Decider.mergeProductItems (items state) p); [| discriminate].
    injection Hevolve as <-. simpl. by repeat case_match.
  - destruct (Decider.removeProductItems (items state) p); [| discriminate].
    injection Hevolve as <-. simpl. by repeat case_match.
  - by injection Hevolve as <-.
  - by injection Hevolve as <-.
  - by injection Hevolve as <-.
Qed.

Lemma status_fold stream state cart :
  FileStore.cs_status cart = status state ->
  exists final,
    Decider.replay state stream = Ok final /\
    FileStore.cs_status (fold_left FileStore.processEvent stream cart)
    = status final.
Proof.
  revert state cart.
  induction stream as [| event rest IH]; intros state cart Hstatus; simpl.
  - eauto.
  - destruct (evolve_returns state event) as [next Hnext].
    rewrite Hnext. simpl. apply IH. by eapply status_step.
Qed.

(** C10 (amended). For every sequence of events, replaying evolve from the
    initial state succeeds and the per-file fold of getAllCarts yields the
    same status as the replayed state; when ShoppingCartOpened occurs, if at
    all, only as the first event of the sequence, the fold also yields the
    same lines (productId, productName, quantity, unit price, in the same
    order). *)
Theorem rebuildCart_agrees_with_replay wallClock streamId lastUpdated stream :
  exists final,
    Decider.replay (Decider.initialState wallClock) stream = Ok final /\
    FileStore.cs_status (FileStore.rebuildCart streamId lastUpdated stream)
    = status final /\
    (openedOnlyFirst stream ->
     FileStore.cs_items (FileStore.rebuildCart streamId lastUpdated stream)
     = toCartItem <$> items final).
Proof.
  destruct (status_fold stream (Decider.initialState wallClock)
              (FileStore.emptyCartSummary streamId lastUpdated (length stream))
              eq_refl) as (final & Hreplay & Hstatus).
  exists final. split; [exact Hreplay |]. split; [exact Hstatus |].
  intros Hstream.
  destruct (rebuildCart_lines_agree wallClock streamId lastUpdated stream
              Hstream) as (final' & Hreplay' & Hitems).
  rewrite Hreplay in Hreplay'. by injection Hreplay' as <-.
Qed.

Lemma rebuildCart_agrees_with_replay_witness :
  FileStore.cs_items
    (FileStore.rebuildCart "cart-1" "2025-01-01T00:00:00.000Z"
       openedThenAdded)
  = [ toCartItem (productA 2 10) ].
Proof.
  destruct (rebuildCart_agrees_with_replay 0 "cart-1"
              "2025-01-01T00:00:00.000Z" openedThenAdded)
    as (final & Hreplay & _ & Hitems).
  rewrite Hitems.
  - injection Hreplay as <-. reflexivity.
  - simpl. repeat constructor.
Defined.

(** ** The file-backed append *)

(** C1, as stated, fails: on a disk where the write fails, the append of
    the ShoppingCartOpened event still returns the in-memory result, with
    only a warning on the console. *)
Lemma append_succeeds_on_failed_write :
  FileStore.appendToStream SampleMemory Z sampleAppend sampleRead
    unit fullDisk "./data/events"
    (FileStore.mkWorld [] tt []) "cart-1"
    [ ShoppingCartOpened "cart-1" "customer-9" 0 ] None
    "2025-01-01T00:00:00.000Z"
  = (FileStore.mkWorld
       [ ("cart-1", [ ShoppingCartOpened "cart-1" "customer-9" 0 ]) ] tt
       [ saveWarning "cart-1"
           (GenericError "ENOSPC: no space left on device") ],
     Ok 1) /\
  FileStore.saveToFile SampleMemory sampleRead unit fullDisk "./data/events"
    [ ("cart-1", [ ShoppingCartOpened "cart-1" "customer-9" 0 ]) ] tt
    "cart-1" "2025-01-01T00:00:00.000Z"
  = (tt, Throw (GenericError "ENOSPC: no space left on device")).
Proof. split; reflexivity. Qed.

(** On a disk that accepts the write, the same append leaves the stream
    file behind, holding the stream read back from memory. *)
Example append_writes_stream_file :
  FileStore.appendToStream SampleMemory Z sampleAppend sampleRead
    SampleDisk keepingDisk "./data/events"
    (FileStore.mkWorld [] [] []) "cart-1"
    [ ShoppingCartOpened "cart-1" "customer-9" 0 ] None
    "2025-01-01T00:00:00.000Z"
  = (FileStore.mkWorld
       [ ("cart-1", [ ShoppingCartOpened "cart-1" "customer-9" 0 ]) ]
       [ ("./data/events/cart-1.json",
          {| FileStore.j_streamId := "cart-1";
             FileStore.j_events :=
               [ FileStore.mkReadEvent
                   (ShoppingCartOpened "cart-1" "customer-9" 0)
                   {| FileStore.streamPosition := 1;
                      FileStore.globalPosition := None |} ];
             FileStore.j_currentStreamVersion := 1;
             FileStore.j_lastUpdated := "2025-01-01T00:00:00.000Z" |}) ]
       [],
     Ok 1).
Proof. reflexivity. Qed.

Section FileBackedAppend.
Context {E MemStore AppendResult FileSystem : Type}.
Variable originalAppendToStream :
  MemStore -> string -> list E -> option FileStore.AppendOptions ->
  MemStore * Result AppendResult.
Variable readStream :
  MemStore -> string -> Result (FileStore.ReadStreamResult E).
Variable writeFile :
  FileSystem -> string -> FileStore.JsonData E -> FileSystem * Result unit.
Variable dataDirectory : string.

(** C1 (amended). The append returns to its caller exactly what the
    in-memory append returned, whether or not the file write completed: it
    fails only when the in-memory append fails.  When the in-memory append
    succeeded and reading the stream back or writing the file failed, the
    call still returns the in-memory result, and the only trace of the
    failure is one warning appended to the console. *)
Theorem appendToStream_returns_memory_result
    world streamId newEvents options lastUpdated :
  snd (FileStore.appendToStream MemStore AppendResult originalAppendToStream
       readStream FileSystem writeFile dataDirectory
       world streamId newEvents options lastUpdated)
  = snd (originalAppendToStream (FileStore.mem world) streamId newEvents
           options) /\
  (forall memory result files error,
     originalAppendToStream (FileStore.mem world) streamId newEvents options
     = (memory, Ok result) ->
     FileStore.saveToFile MemStore readStream FileSystem writeFile
       dataDirectory memory (FileStore.disk world) streamId lastUpdated
     = (files, Throw error) ->
     FileStore.appendToStream MemStore AppendResult originalAppendToStream
       readStream FileSystem writeFile dataDirectory
       world streamId newEvents options lastUpdated
     = (FileStore.mkWorld memory files
          (FileStore.console world ++ [ saveWarning streamId error ]),
        Ok result)) /\
  (forall memory result files,
     originalAppendToStream (FileStore.mem world) streamId newEvents options
     = (memory, Ok result) ->
     FileStore.saveToFile MemStore readStream FileSystem writeFile
       dataDirectory memory (FileStore.disk world) streamId lastUpdated
     = (files, Ok tt) ->
     FileStore.appendToStream MemStore AppendResult originalAppendToStream
       readStream FileSystem writeFile dataDirectory
       world streamId newEvents options lastUpdated
     = (FileStore.mkWorld memory files (FileStore.console world),
        Ok result)).
Proof.
  unfold FileStore.appendToStream. split; [| split].
  - destruct (originalAppendToStream (FileStore.mem world) streamId
                newEvents options) as [memory [result | error]]; simpl;
      [| reflexivity].
    destruct (FileStore.saveToFile MemStore readStream FileSystem writeFile
                dataDirectory memory (FileStore.disk world) streamId
                lastUpdated) as [files [[] | error]]; reflexivity.
  - intros memory result files error -> ->. reflexivity.
  - intros memory result files -> ->. reflexivity.
Qed.

End FileBackedAppend.

Lemma appendToStream_returns_memory_result_witness :
  FileStore.appendToStream SampleMemory Z sampleAppend sampleRead
    unit fullDisk "./data/events"
    (FileStore.mkWorld [] tt []) "cart-1"
    [ ShoppingCartOpened "cart-1" "customer-9" 0 ] None
    "2025-01-01T00:00:00.000Z"
  = (FileStore.mkWorld
       [ ("cart-1", [ ShoppingCartOpened "cart-1" "customer-9" 0 ]) ] tt
       ([] ++ [ saveWarning "cart-1"
                  (GenericError "ENOSPC: no space left on device") ]),
     Ok 1).
Proof.
  apply (proj1 (proj2
           (appendToStream_returns_memory_result sampleAppend sampleRead
              fullDisk "./data/events" (FileStore.mkWorld [] tt []) "cart-1"
              [ ShoppingCartOpened "cart-1" "customer-9" 0 ] None
              "2025-01-01T00:00:00.000Z"))); reflexivity.
Defined.

(** * Further properties of the decider *)

(** Closing an Opened cart: confirming is rejected with IllegalState when
    the cart has no line and accepted when it has one; cancelling needs no
    line.  Folding the accepted event changes the status, records the time
    of the event and keeps id, customer, lines and opening time. *)
Theorem closing_an_opened_cart wallClock state cartId metadata :
  status state = Opened ->
  let at_time := Decider.nowOr wallClock metadata in
  (items state = [] ->
   isIllegalState
     (Decider.decide wallClock (ConfirmShoppingCart cartId) state metadata)) /\
  (items state <> [] ->
   Decider.decide wallClock (ConfirmShoppingCart cartId) state metadata
   = Ok (ShoppingCartConfirmed cartId at_time)) /\
  Decider.evolve state (ShoppingCartConfirmed cartId at_time)
  = Ok {| id := id state; customerId := customerId state;
          status := Confirmed; items := items state;
          openedAt := openedAt state; confirmedAt := Some at_time;
          cancelledAt := cancelledAt state |} /\
  Decider.decide wallClock (CancelShoppingCart cartId) state metadata
  = Ok (ShoppingCartCancelled cartId at_time) /\
  Decider.evolve state (ShoppingCartCancelled cartId at_time)
  = Ok {| id := id state; customerId := customerId state;
          status := Cancelled; items := items state;
          openedAt := openedAt state; confirmedAt := confirmedAt state;
          cancelledAt := Some at_time |}.
Proof.
  intros Hopen at_time. subst at_time.
  split; [| split; [| split; [| split]]]; try reflexivity.
  - intros Hempty. simpl. unfold Decider.confirmShoppingCart.
    destruct (decide (status state <> Opened)) as [Hne | _]; [done |].
    rewrite Hempty. simpl. eexists. reflexivity.
  - intros Hlines. simpl. unfold Decider.confirmShoppingCart.
    destruct (decide (status state <> Opened)) as [Hne | _]; [done |].
    destruct (items state) as [| line rest]; [done | reflexivity].
  - simpl. unfold Decider.cancelShoppingCart.
    destruct (decide (status state <> Opened)) as [Hne | _]; [done |].
    reflexivity.
Qed.

Lemma closing_an_opened_cart_witness :
  Decider.decide 7 (ConfirmShoppingCart "cart-1") sampleCart None
  = Ok (ShoppingCartConfirmed "cart-1" 7).
Proof.
  destruct (closing_an_opened_cart 7 sampleCart "cart-1" None eq_refl)
    as (_ & Hconfirm & _).
  apply Hconfirm. simpl. discriminate.
Defined.

Lemma evolve_keeps_id state event next :
  isOpenedEvent event = false ->
  Decider.evolve state event = Ok next ->
  id next = id state.
Proof.
  intros Hevent Hevolve.
  destruct event as [cartId customer t | cartId p t | cartId p t
                    | cartId t | cartId t | type];
    try discriminate; simpl in Hevolve.
  - destruct (Decider.mergeProductItems (items state) p); [| discriminate].
    by injection Hevolve as <-.
  - destruct (Decider.removeProductItems (items state) p); [| discriminate].
    by injection Hevolve as <-.
  - by injection Hevolve as <-.
  - by injection Hevolve as <-.
  - by injection Hevolve as <-.
Qed.

Lemma accepted_step_keeps_id wallClock state command metadata event next :
  id state <> "" ->
  Decider.decide wallClock command state metadata = Ok event ->
  Decider.evolve state event = Ok next ->
  id next = id state.
Proof.
  intros Hid Hdecide Hevolve.
  apply (evolve_keeps_id state event next); [| exact Hevolve].
  pose proof (decide_event _ _ _ _ _ Hdecide) as Hevent. simpl in Hevent.
  destruct command; try done; subst event; try reflexivity.
  simpl in Hdecide. unfold Decider.openShoppingCart in Hdecide.
  destruct (decide (id state <> "")); [discriminate | done].
Qed.

(** Opening: on a state whose id is empty, OpenShoppingCart is accepted
    whatever the other fields are; folding its event yields an Opened cart
    for the command's cart and customer with no lines and no closing times;
    and when the command's cart id is not empty, the cart keeps that id
    through every later accepted command, and OpenShoppingCart is rejected
    with IllegalState in every state the cart goes through from then on. *)
Theorem opening_a_cart wallClock state cartId customer metadata :
  id state = "" ->
  let event :=
    ShoppingCartOpened cartId customer (Decider.nowOr wallClock metadata) in
  let opened :=
    {| id := cartId; customerId := customer; status := Opened; items := [];
       openedAt := Decider.nowOr wallClock metadata;
       confirmedAt := None; cancelledAt := None |} in
  Decider.decide wallClock (OpenShoppingCart cartId customer) state metadata
  = Ok event /\
  Decider.evolve state event = Ok opened /\
  (cartId <> "" ->
   forall later,
     laterThan opened later ->
     id later = cartId /\
     forall laterClock otherId otherCustomer laterMetadata,
       isIllegalState
         (Decider.decide laterClock (OpenShoppingCart otherId otherCustomer)
            later laterMetadata)).
Proof.
  intros Hid event opened. subst event.
  split; [| split].
  - simpl. unfold Decider.openShoppingCart. rewrite Hid.
    destruct (decide (("" : string) <> "")) as [Hne | _]; [done | reflexivity].
  - reflexivity.
  - intros Hcart later Hlater.
    assert (Hkept : id later = cartId).
    { induction Hlater as [| laterClock middle next command laterMetadata
                             event Hmiddle IH Hdecide Hevolve];
        [reflexivity |].
      rewrite <- IH.
      apply (accepted_step_keeps_id laterClock middle command laterMetadata
               event next); [by rewrite IH | done | done]. }
    split; [exact Hkept |].
    intros laterClock otherId otherCustomer laterMetadata.
    simpl. unfold Decider.openShoppingCart. rewrite Hkept.
    destruct (decide (cartId <> "")) as [_ | Hempty]; [| done].
    eexists. reflexivity.
Qed.

Lemma opening_a_cart_witness :
  isIllegalState
    (Decider.decide 9 (OpenShoppingCart "cart-2" "customer-3") sampleCart None).
Proof.
  destruct (opening_a_cart 0 (Decider.initialState 0) "cart-1" "customer-9"
              None eq_refl) as (_ & _ & Hlater).
  apply (Hlater ltac:(discriminate) sampleCart).
  apply (later_command _ 0 (withStateItems sampleCart []) sampleCart
           (AddProductItemToShoppingCart "cart-1" (productA 2 10)) None
           (ProductItemAddedToShoppingCart "cart-1" (productA 2 10) 0)).
  - apply later_same.
  - reflexivity.
  - reflexivity.
Defined.

(** The injected clock: when the metadata carries [now], the decision does
    not depend on the wall clock, and the event of an accepted command
    carries exactly that time. *)
Theorem decide_uses_injected_clock
    wallClock otherClock command state at_time :
  Decider.decide wallClock command state (injected at_time)
  = Decider.decide otherClock command state (injected at_time) /\
  (forall event,
     Decider.decide wallClock command state (injected at_time) = Ok event ->
     eventTime event = Some at_time).
Proof.
  split.
  - destruct command; reflexivity.
  - intros event Hdecide. apply decide_event in Hdecide. simpl in Hdecide.
    destruct command; try done; by subst event.
Qed.

Lemma decide_uses_injected_clock_witness :
  eventTime (ShoppingCartCancelled "cart-1" 42) = Some 42.
Proof.
  apply (proj2 (decide_uses_injected_clock 0 1 (CancelShoppingCart "cart-1")
                  sampleCart 42)).
  reflexivity.
Defined.

Lemma evolve_keeps_lines_unique state event next :
  linesUnique (items state) ->
  Decider.evolve state event = Ok next ->
  linesUnique (items next).
Proof.
  unfold linesUnique. intros Hunique Hevolve.
  destruct event as [cartId customer t | cartId p t | cartId p t
                    | cartId t | cartId t | type]; simpl in Hevolve.
  - injection Hevolve as <-. constructor.
  - destruct (list_find (fun item => productId item = productId p)
                (items state)) as [[i x] |] eqn:Hfind.
    + rewrite (mergeProductItems_present _ _ _ _ Hfind) in Hevolve.
      injection Hevolve as <-. simpl.
      apply list_find_Some in Hfind as (Hlook & _ & _).
      by rewrite (keys_insert_same productId _ i x).
    + rewrite (mergeProductItems_absent _ _ Hfind) in Hevolve.
      injection Hevolve as <-. simpl.
      apply keys_snoc_nodup; [done | by apply list_find_None in Hfind].
  - destruct (list_find (fun item => productId item = pi_productId p)
                (items state)) as [[i x] |] eqn:Hfind.
    + rewrite (removeProductItems_present _ _ _ _ Hfind) in Hevolve.
      injection Hevolve as <-. simpl.
      apply list_find_Some in Hfind as (Hlook & _ & _).
      destruct (quantity x - pi_quantity p <=? 0).
      * by apply keys_delete_nodup.
      * by rewrite (keys_insert_same productId _ i x).
    + rewrite (removeProductItems_absent _ _ Hfind) in Hevolve.
      by injection Hevolve as <-.
  - by injection Hevolve as <-.
  - by injection Hevolve as <-.
  - by injection Hevolve as <-.
Qed.

(** Replaying any sequence of events on a state that has one line per
    productId succeeds and ends in a state that has one line per productId;
    in particular every state replayed from the initial state has. *)
Theorem replay_keeps_one_line_per_product stream :
  (forall state,
     linesUnique (items state) ->
     exists final,
       Decider.replay state stream = Ok final /\
       linesUnique (items final)) /\
  (forall wallClock,
     exists final,
       Decider.replay (Decider.initialState wallClock) stream = Ok final /\
       linesUnique (items final)).
Proof.
  assert (Hfrom : forall state,
    linesUnique (items state) ->
    exists final,
      Decider.replay state stream = Ok final /\ linesUnique (items final)).
  { induction stream as [| event rest IH]; intros state Hunique; simpl.
    - eauto.
    - destruct (evolve_returns state event) as [next Hnext].
      rewrite Hnext. simpl. apply IH.
      by eapply evolve_keeps_lines_unique. }
  split; [exact Hfrom |].
  intros wallClock. apply Hfrom. constructor.
Qed.

Lemma replay_keeps_one_line_per_product_witness :
  exists final,
    Decider.replay sampleCart
      [ ProductItemAddedToShoppingCart "cart-1" (productA 1 10) 1 ]
    = Ok final /\
    linesUnique (items final).
Proof.
  apply (proj1 (replay_keeps_one_line_per_product
                  [ ProductItemAddedToShoppingCart "cart-1" (productA 1 10) 1 ])
           sampleCart).
  unfold linesUnique. simpl. apply NoDup_singleton.
Defined.

(** ** Units moved by accepted commands *)

Lemma sumQuantity_app lines more :
  sumQuantity (lines ++ more) = sumQuantity lines + sumQuantity more.
Proof. induction lines as [| item rest IH]; simpl; lia. Qed.

Lemma sumQuantity_insert lines i x q :
  lines !! i = Some x ->
  sumQuantity (<[i := withQuantity x q]> lines)
  = sumQuantity lines - quantity x + q.
Proof.
  revert i. induction lines as [| item rest IH]; intros [| i] Hlook;
    simplify_eq/=; [lia |].
  rewrite (IH _ Hlook). lia.
Qed.

Lemma sumQuantity_delete lines i x :
  lines !! i = Some x ->
  sumQuantity (delete i lines) = sumQuantity lines - quantity x.
Proof.
  revert i. induction lines as [| item rest IH]; intros [| i] Hlook;
    simplify_eq/=; [lia |].
  rewrite (IH _ Hlook). lia.
Qed.

(** The number of units in the cart moves by exactly what an accepted
    command asks for: folding the event of an accepted
    AddProductItemToShoppingCart raises the sum of the quantities by the
    added quantity, and folding the event of an accepted
    RemoveProductItemFromShoppingCart lowers it by the requested quantity
    (the line that reaches zero is dropped, none goes below). *)
Theorem accepted_commands_move_units
    wallClock state command metadata event next :
  Decider.decide wallClock command state metadata = Ok event ->
  Decider.evolve state event = Ok next ->
  match command with
  | AddProductItemToShoppingCart _ p =>
      sumQuantity (items next) = sumQuantity (items state) + quantity p
  | RemoveProductItemFromShoppingCart _ p =>
      sumQuantity (items next) = sumQuantity (items state) - pi_quantity p
  | ConfirmShoppingCart _ | CancelShoppingCart _ =>
      items next = items state
  | _ => True
  end.
Proof.
  intros Hdecide Hevolve.
  pose proof (decide_event _ _ _ _ _ Hdecide) as Hevent. simpl in Hevent.
  destruct command as [cartId customer | cartId p | cartId p
                      | cartId | cartId | type]; try exact I;
    subst event; simpl in Hevolve.
  - destruct (list_find (fun item => productId item = productId p)
                (items state)) as [[i x] |] eqn:Hfind.
    + rewrite (mergeProductItems_present _ _ _ _ Hfind) in Hevolve.
      injection Hevolve as <-. simpl.
      apply list_find_Some in Hfind as (Hlook & _ & _).
      rewrite (sumQuantity_insert _ _ _ _ Hlook). lia.
    + rewrite (mergeProductItems_absent _ _ Hfind) in Hevolve.
      injection Hevolve as <-. simpl. rewrite sumQuantity_app. simpl. lia.
  - simpl in Hdecide. unfold Decider.removeProductItem in Hdecide.
    destruct (decide (status state <> Opened)); [discriminate |].
    destruct (list_find (fun item => productId item = pi_productId p)
                (items state)) as [[i x] |] eqn:Hfind.
    + rewrite (find_found _ _ _ _ Hfind) in Hdecide.
      destruct (Z.ltb_spec (quantity x) (pi_quantity p)); [discriminate |].
      rewrite (removeProductItems_present _ _ _ _ Hfind) in Hevolve.
      injection Hevolve as <-. simpl.
      apply list_find_Some in Hfind as (Hlook & _ & _).
      destruct (Z.leb_spec (quantity x - pi_quantity p) 0).
      * rewrite (sumQuantity_delete _ _ _ Hlook). lia.
      * rewrite (sumQuantity_insert _ _ _ _ Hlook). lia.
    + rewrite (find_missing _ _ Hfind) in Hdecide. discriminate.
  - by injection Hevolve as <-.
  - by injection Hevolve as <-.
Qed.

Lemma accepted_commands_move_units_witness :
  sumQuantity (items (withStateItems sampleCart [])) =
  sumQuantity (items sampleCart) - 2.
Proof.
  apply (accepted_commands_move_units 7 sampleCart
           (RemoveProductItemFromShoppingCart "cart-1"
              (mkProductItem "productA" "Product A" 2))
           None
           (ProductItemRemovedFromShoppingCart "cart-1"
              (mkProductItem "productA" "Product A" 2) 7)
           (withStateItems sampleCart [])); reflexivity.
Defined.

(** * The cart summary projection against the decider *)

Lemma summary_added document cartId p t merged :
  Decider.mergeProductItems (s_items document) p = Ok merged ->
  Summary.evolveShoppingCartSummary (Some document)
    (ProductItemAddedToShoppingCart cartId p t)
  = Ok (Some (Summary.withItems document merged
                (Summary.calculateTotals merged))).
Proof.
  intros Hmerge. unfold Summary.evolveShoppingCartSummary.
  change (Summary.mergeProductItems (s_items document) p)
    with (Decider.mergeProductItems (s_items document) p).
  by rewrite Hmerge.
Qed.

Lemma summary_removed document cartId p t remaining :
  Decider.removeProductItems (s_items document) p = Ok remaining ->
  Summary.evolveShoppingCartSummary (Some document)
    (ProductItemRemovedFromShoppingCart cartId p t)
  = Ok (Some (Summary.withItems document remaining
                (Summary.calculateTotals remaining))).
Proof.
  intros Hremove. unfold Summary.evolveShoppingCartSummary.
  change (Summary.removeProductItems (s_items document) p)
    with (Decider.removeProductItems (s_items document) p).
  by rewrite Hremove.
Qed.

Lemma summary_step_mirrors state event :
  exists next,
    Decider.evolve state event = Ok next /\
    Summary.evolveShoppingCartSummary (Some (summaryOf state)) event
    = Ok (Some (summaryOf next)).
Proof.
  destruct event as [cartId customer t | cartId p t | cartId p t
                    | cartId t | cartId t | type].
  - eexists. split; reflexivity.
  - destruct (mergeProductItems_total (items state) p) as [merged Hmerge].
    exists (withStateItems state merged). split.
    + simpl. by rewrite Hmerge.
    + rewrite (summary_added _ _ _ _ merged) by exact Hmerge.
      unfold Summary.withItems, summaryOf. simpl.
      by rewrite calculateTotals_sums.
  - destruct (removeProductItems_total (items state) p)
      as [remaining Hremove].
    exists (withStateItems state remaining). split.
    + simpl. by rewrite Hremove.
    + rewrite (summary_removed _ _ _ _ remaining) by exact Hremove.
      unfold Summary.withItems, summaryOf. simpl.
      by rewrite calculateTotals_sums.
  - eexists. split; reflexivity.
  - eexists. split; reflexivity.
  - eexists. split; reflexivity.
Qed.

Lemma summary_fold_mirrors stream state :
  exists final,
    Decider.replay state stream = Ok final /\
    Summary.project (Some (summaryOf state)) stream
    = Ok (Some (summaryOf final)).
Proof.
  revert state. induction stream as [| event rest IH]; intros state; simpl.
  - eauto.
  - destruct (summary_step_mirrors state event) as (next & -> & ->).
    simpl. apply IH.
Qed.

(** The summary projection mirrors the decider.  For every sequence of
    events, folded from null on one side and replayed from the initial state
    on the other: the projection is null exactly when the sequence holds no
    ShoppingCartOpened event, and otherwise it is the document with the id,
    customer, status, lines and times of the replayed state, with
    totalAmount and totalItemsCount the sums over those lines. *)
Theorem summary_mirrors_decider wallClock stream :
  exists final,
    Decider.replay (Decider.initialState wallClock) stream = Ok final /\
    Summary.project None stream
    = Ok (if existsb isOpenedEvent stream then Some (summaryOf final)
          else None).
Proof.
  generalize (Decider.initialState wallClock).
  induction stream as [| event rest IH]; intros state; simpl.
  - eauto.
  - destruct (isOpenedEvent event) eqn:Hevent.
    + destruct event as [cartId customer t | | | | |]; try discriminate.
      simpl.
      destruct (summary_fold_mirrors rest
                  {| id := cartId; customerId := customer; status := Opened;
                     items := []; openedAt := t;
                     confirmedAt := None; cancelledAt := None |})
        as (final & Hreplay & Hproject).
      exists final. split; [exact Hreplay | exact Hproject].
    + destruct (evolve_returns state event) as [next Hnext].
      rewrite Hnext. simpl.
      assert (Hnull : Summary.evolveShoppingCartSummary None event = Ok None)
        by (destruct event; try discriminate; reflexivity).
      rewrite Hnull. simpl. apply IH.
Qed.

(** * The customer projection over a feed *)

Lemma customer_step document event streamId :
  exists next,
    Customer.evolveCustomerShoppingSummary (Some document) event streamId
    = Ok (Some next) /\
    Customer.e_id <$> Customer.carts next
    = (Customer.e_id <$> Customer.carts document)
      ++ openedCartIds [ (event, streamId) ] /\
    Customer.totalCarts next
    = Customer.totalCarts document
      + Z.of_nat (length (openedCartIds [ (event, streamId) ])) /\
    countsBalance next = countsBalance document /\
    Customer.c_customerId next = Customer.c_customerId document.
Proof.
  unfold countsBalance.
  destruct event as [cartId customer t | cartId p t | cartId p t
                    | cartId t | cartId t | type]; simpl.
  - eexists. split; [reflexivity |]. simpl.
    rewrite fmap_app. repeat split; try reflexivity; lia.
  - destruct (list_find (fun cart => Customer.e_id cart = cartId)
                (Customer.carts document)) as [[i x] |] eqn:Hfind.
    + destruct (findIndex_found _ _ _ _ Hfind) as (-> & Hlook & _).
      destruct (Z.ltb_spec (Z.of_nat i) 0); [lia |].
      rewrite (at_found _ _ _ Hlook). simpl.
      eexists. split; [reflexivity |]. simpl. unfold setAt.
      rewrite Nat2Z.id, (keys_insert_same Customer.e_id _ i x) by done.
      rewrite app_nil_r. repeat split; lia.
    + destruct (findIndex_missing _ _ Hfind) as (-> & _). simpl.
      eexists. split; [reflexivity |].
      rewrite app_nil_r. repeat split; lia.
  - eexists. split; [reflexivity |]. simpl.
    rewrite app_nil_r. repeat split; lia.
  - destruct (list_find (fun cart => Customer.e_id cart = cartId)
                (Customer.carts document)) as [[i x] |] eqn:Hfind.
    + destruct (findIndex_found _ _ _ _ Hfind) as (-> & Hlook & _).
      destruct (Z.ltb_spec (Z.of_nat i) 0); [lia |].
      rewrite (at_found _ _ _ Hlook). simpl.
      eexists. split; [reflexivity |]. simpl. unfold setAt.
      rewrite Nat2Z.id, (keys_insert_same Customer.e_id _ i x) by done.
      rewrite app_nil_r. repeat split; lia.
    + destruct (findIndex_missing _ _ Hfind) as (-> & _). simpl.
      eexists. split; [reflexivity |].
      rewrite app_nil_r. repeat split; lia.
  - destruct (list_find (fun cart => Customer.e_id cart = cartId)
                (Customer.carts document)) as [[i x] |] eqn:Hfind.
    + destruct (findIndex_found _ _ _ _ Hfind) as (-> & Hlook & _).
      destruct (Z.ltb_spec (Z.of_nat i) 0); [lia |].
      rewrite (at_found _ _ _ Hlook). simpl.
      eexists. split; [reflexivity |]. simpl. unfold setAt.
      rewrite Nat2Z.id, (keys_insert_same Customer.e_id _ i x) by done.
      rewrite app_nil_r. repeat split; lia.
    + destruct (findIndex_missing _ _ Hfind) as (-> & _). simpl.
      eexists. split; [reflexivity |].
      rewrite app_nil_r. repeat split; lia.
  - eexists. split; [reflexivity |].
    rewrite app_nil_r. repeat split; lia.
Qed.

Lemma openedCartIds_cons entry feed :
  openedCartIds (entry :: feed) = openedCartIds [ entry ] ++ openedCartIds feed.
Proof. destruct entry as [[] streamId]; reflexivity. Qed.

Lemma customer_fold feed document :
  exists final,
    projectCustomer (Some document) feed = Ok (Some final) /\
    Customer.e_id <$> Customer.carts final
    = (Customer.e_id <$> Customer.carts document) ++ openedCartIds feed /\
    Customer.totalCarts final
    = Customer.totalCarts document + Z.of_nat (length (openedCartIds feed)) /\
    countsBalance final = countsBalance document /\
    Customer.c_customerId final = Customer.c_customerId document.
Proof.
  revert document. induction feed as [| [event streamId] rest IH];
    intros document.
  - exists document. simpl. rewrite app_nil_r.
    repeat split; try reflexivity; lia.
  - destruct (customer_step document event streamId)
      as (next & Hstep & Hids & Htotal & Hbalance & Hcustomer).
    destruct (IH next) as (final & Hfold & Hids' & Htotal' & Hbalance' & Hc').
    exists final. rewrite (openedCartIds_cons (event, streamId) rest).
    cbn [projectCustomer]. rewrite Hstep. cbn [bind].
    split; [exact Hfold |].
    rewrite Hids', Hids, Htotal', Htotal, Hbalance', Hbalance, Hc', Hcustomer.
    rewrite length_app, <- app_assoc. repeat split; try reflexivity; lia.
Qed.

(** Folding the customer projection over any feed, starting from null, never
    fails.  The document is null exactly when the feed holds no
    ShoppingCartOpened event; otherwise its carts are, in order, the carts of
    the ShoppingCartOpened events of the feed, totalCarts is their number,
    the active, confirmed and cancelled counts add up to totalCarts, and
    customerId is the customer of the first ShoppingCartOpened event,
    whatever customer the later ones name. *)
Theorem customer_projection_counts feed :
  exists final,
    projectCustomer None feed = Ok final /\
    match firstOpenedCustomer feed with
    | None => final = None
    | Some customer =>
        exists document,
          final = Some document /\
          Customer.e_id <$> Customer.carts document = openedCartIds feed /\
          Customer.totalCarts document
          = Z.of_nat (length (Customer.carts document)) /\
          Customer.activeCartsCount document
          + Customer.confirmedCartsCount document
          + Customer.cancelledCartsCount document
          = Customer.totalCarts document /\
          Customer.c_customerId document = customer
    end.
Proof.
  induction feed as [| [event streamId] rest IH].
  - exists None. split; reflexivity.
  - destruct event as [cartId customer t | cartId p t | cartId p t
                      | cartId t | cartId t | type];
      try (destruct IH as (final & Hfold & Hfinal);
           exists final; split; [exact Hfold | exact Hfinal]).
    clear IH.
    set (first :=
      {| Customer.c_customerId := customer; Customer.totalCarts := 0 + 1;
         Customer.activeCartsCount := 0 + 1;
         Customer.confirmedCartsCount := 0;
         Customer.cancelledCartsCount := 0; Customer.totalSpent := 0%float;
         Customer.lastActivityAt := t;
         Customer.carts :=
           [] ++ [ {| Customer.e_id := cartId; Customer.e_status := "Opened";
                      Customer.e_totalAmount := 0%float;
                      Customer.e_openedAt := t |} ] |}).
    destruct (customer_fold rest first)
      as (final & Hfold & Hids & Htotal & Hbalance & Hcustomer).
    exists (Some final). split; [exact Hfold |].
    cbn [firstOpenedCustomer]. exists final.
    split; [reflexivity |]. split; [exact Hids |].
    unfold countsBalance in Hbalance. simpl in *.
    assert (Hlength : length (Customer.carts final)
                      = S (length (openedCartIds rest))).
    { rewrite <- (length_fmap Customer.e_id), Hids. reflexivity. }
    repeat split; [lia | lia | exact Hcustomer].
Qed.

(** * The cart listing *)

Lemma processEvent_keeps_lines_unique cart event :
  NoDup (FileStore.ci_productId <$> FileStore.cs_items cart) ->
  NoDup (FileStore.ci_productId
           <$> FileStore.cs_items (FileStore.processEvent cart event)).
Proof.
  intros Hunique.
  destruct event as [cartId customer t | cartId p t | cartId p t
                    | cartId t | cartId t | type]; simpl; try done.
  - destruct (list_find (fun item => FileStore.ci_productId item = productId p)
                (FileStore.cs_items cart)) as [[i x] |] eqn:Hfind; simpl.
    + apply list_find_Some in Hfind as (Hlook & _ & _).
      by rewrite (keys_insert_same FileStore.ci_productId _ i x).
    + apply list_find_None in Hfind.
      by apply (keys_snoc_nodup FileStore.ci_productId).
  - destruct (list_find
                (fun item => FileStore.ci_productId item = pi_productId p)
                (FileStore.cs_items cart)) as [[i x] |] eqn:Hfind; [| done].
    apply list_find_Some in Hfind as (Hlook & _ & _).
    destruct (FileStore.ci_quantity x - pi_quantity p <=? 0); simpl.
    + eapply sublist_NoDup; [| apply fmap_sublist, sublist_filter].
      by rewrite (keys_insert_same FileStore.ci_productId _ i x).
    + by rewrite (keys_insert_same FileStore.ci_productId _ i x).
Qed.

Lemma processEvent_keeps_header cart event :
  FileStore.cs_id (FileStore.processEvent cart event) = FileStore.cs_id cart /\
  FileStore.cs_lastUpdated (FileStore.processEvent cart event)
  = FileStore.cs_lastUpdated cart /\
  FileStore.cs_totalEvents (FileStore.processEvent cart event)
  = FileStore.cs_totalEvents cart.
Proof. destruct event; simpl; repeat case_match; done. Qed.

(** The cart rebuilt from one stream file, whatever events the file holds,
    has at most one line per productId, and carries the stream id, the
    lastUpdated stamp of the file and the number of events of the file. *)
Theorem rebuildCart_one_line_per_product streamId lastUpdated fileEvents :
  let cart := FileStore.rebuildCart streamId lastUpdated fileEvents in
  NoDup (FileStore.ci_productId <$> FileStore.cs_items cart) /\
  FileStore.cs_id cart = streamId /\
  FileStore.cs_lastUpdated cart = lastUpdated /\
  FileStore.cs_totalEvents cart = length fileEvents.
Proof.
  unfold FileStore.rebuildCart.
  generalize (length fileEvents). intros total.
  assert (Hfold : forall start,
    NoDup (FileStore.ci_productId <$> FileStore.cs_items start) ->
    let cart := fold_left FileStore.processEvent fileEvents start in
    NoDup (FileStore.ci_productId <$> FileStore.cs_items cart) /\
    FileStore.cs_id cart = FileStore.cs_id start /\
    FileStore.cs_lastUpdated cart = FileStore.cs_lastUpdated start /\
    FileStore.cs_totalEvents cart = FileStore.cs_totalEvents start).
  { induction fileEvents as [| event rest IH]; intros start Hstart; simpl.
    - done.
    - destruct (processEvent_keeps_header start event) as (<- & <- & <-).
      apply IH. by apply processEvent_keeps_lines_unique. }
  apply (Hfold (FileStore.emptyCartSummary streamId lastUpdated total)).
  constructor.
Qed.

(** * The command handler and the routes *)

Lemma replay_returns stream state :
  exists final, Decider.replay state stream = Ok final.
Proof.
  revert state. induction stream as [| event rest IH]; intros state; simpl.
  - eauto.
  - destruct (evolve_returns state event) as [next ->]. simpl. apply IH.
Qed.

Section CommandHandling.
Context {Store AppendResult : Type}.
Variable readStream :
  Store -> string -> Result (FileStore.ReadStreamResult ShoppingCartEvent).
Variable appendToStream :
  Store -> string -> list ShoppingCartEvent ->
  option FileStore.AppendOptions -> Store * Result AppendResult.
Variable nextExpectedStreamVersion : AppendResult -> Z.
Variable getProductPrice : string -> option float.
Variable parseBigInt : string -> Result Z.
Variable currentTime wallClock : Date.

(** handleCommand reads the stream once and replays it, which never
    fails; the command is decided against the replayed state with the time
    of getCurrentTime.  When decide rejects, the store is returned as it
    was and the rejection is the result; when decide accepts, the only
    write is one append of exactly the decided event, under the caller's
    expected revision, and its outcome is the result.  When the stream
    cannot be read, nothing is decided or written. *)
Theorem handleCommand_decides_then_appends
    store streamId command expectedRevision :
  match readStream store streamId with
  | Throw error =>
      Api.handleCommand Store AppendResult readStream appendToStream
        nextExpectedStreamVersion currentTime wallClock
        store streamId command expectedRevision
      = (store, Throw error)
  | Ok readResult =>
      exists state,
        Decider.replay (Decider.initialState wallClock)
          (FileStore.r_event <$> FileStore.events readResult) = Ok state /\
        match Decider.decide wallClock command state (injected currentTime)
        with
        | Throw error =>
            Api.handleCommand Store AppendResult readStream appendToStream
              nextExpectedStreamVersion currentTime wallClock
              store streamId command expectedRevision
            = (store, Throw error)
        | Ok event =>
            eventTime event = Some currentTime /\
            Api.handleCommand Store AppendResult readStream appendToStream
              nextExpectedStreamVersion currentTime wallClock
              store streamId command expectedRevision
            = (fst (appendToStream store streamId [ event ]
                      (Some {| FileStore.expectedStreamVersion :=
                                 expectedRevision |})),
               match snd (appendToStream store streamId [ event ]
                            (Some {| FileStore.expectedStreamVersion :=
                                       expectedRevision |})) with
               | Ok appendResult =>
                   Ok (nextExpectedStreamVersion appendResult)
               | Throw error => Throw error
               end)
        end
  end.
Proof.
  unfold Api.handleCommand.
  destruct (readStream store streamId) as [readResult | error];
    [| reflexivity].
  destruct (replay_returns (FileStore.r_event <$> FileStore.events readResult)
              (Decider.initialState wallClock)) as [state Hreplay].
  exists state. split; [exact Hreplay |]. rewrite Hreplay.
  unfold injected.
  destruct (Decider.decide wallClock command state
              (Some {| now := Some currentTime |})) as [event | error] eqn:Hd;
    [| reflexivity].
  split.
  - by apply (proj2 (decide_uses_injected_clock wallClock wallClock command
                       state currentTime)).
  - destruct (appendToStream store streamId [ event ]
                (Some {| FileStore.expectedStreamVersion :=
                           expectedRevision |})) as [stored [r | error]];
      reflexivity.
Qed.

(** A closed cart is never written to: when the stream replays to a state
    that is Confirmed or Cancelled and has a non-empty id, handleCommand
    fails with IllegalState for each of the five commands and returns the
    store as it was. *)
Theorem handleCommand_on_closed_cart
    store streamId command expectedRevision readResult state :
  readStream store streamId = Ok readResult ->
  Decider.replay (Decider.initialState wallClock)
    (FileStore.r_event <$> FileStore.events readResult) = Ok state ->
  terminal state -> id state <> "" -> knownCommand command ->
  exists message,
    Api.handleCommand Store AppendResult readStream appendToStream
      nextExpectedStreamVersion currentTime wallClock
      store streamId command expectedRevision
    = (store, Throw (IllegalStateError message)).
Proof.
  intros Hread Hreplay Hterminal Hid Hknown.
  unfold Api.handleCommand. rewrite Hread, Hreplay.
  assert (Hreject :
    isIllegalState
      (Decider.decide wallClock command state
         (Some {| now := Some currentTime |}))).
  { destruct command; simpl in *;
      unfold Decider.openShoppingCart, Decider.addProductItem,
        Decider.removeProductItem, Decider.confirmShoppingCart,
        Decider.cancelShoppingCart;
      try done;
      destruct Hterminal as [Hs | Hs];
      repeat case_decide; try (eexists; reflexivity);
      try congruence; rewrite Hs in *; done. }
  destruct Hreject as [message ->]. by exists message.
Qed.

End CommandHandling.

Lemma handleCommand_on_closed_cart_witness :
  exists message,
    Api.handleCommand SampleMemory Z sampleRead sampleAppend (fun next => next)
      5 6 closedMemory "cart-1"
      (AddProductItemToShoppingCart "cart-1" (productA 1 10)) (Some 3)
    = (closedMemory, Throw (IllegalStateError message)).
Proof.
  eapply (handleCommand_on_closed_cart sampleRead sampleAppend
            (fun next => next) 5 6 closedMemory "cart-1"
            (AddProductItemToShoppingCart "cart-1" (productA 1 10)) (Some 3)
            _ confirmedCart).
  - reflexivity.
  - reflexivity.
  - left. reflexivity.
  - simpl. discriminate.
  - exact I.
Defined.

Section Routes.
Context {Store AppendResult : Type}.
Variable readStream :
  Store -> string -> Result (FileStore.ReadStreamResult ShoppingCartEvent).
Variable appendToStream :
  Store -> string -> list ShoppingCartEvent ->
  option FileStore.AppendOptions -> Store * Result AppendResult.
Variable nextExpectedStreamVersion : AppendResult -> Z.
Variable getProductPrice : string -> option float.
Variable parseBigInt : string -> Result Z.
Variable currentTime wallClock : Date.

(** Adding an item through the API is answered 200 or 400.  When the
    product has no price in the catalogue the answer is 400 and the store is
    returned as it was, whatever the cart.  When the answer is 200, the
    product has a price, the If-Match header was readable, and the store is
    the one returned by a single append, to the stream of the path, of one
    ProductItemAddedToShoppingCart event carrying the product of the body
    with the unit price of the catalogue and the time of getCurrentTime,
    under the expected revision of the header. *)
Theorem addItem_outcomes store request :
  let result :=
    Api.addItem Store AppendResult readStream appendToStream
      nextExpectedStreamVersion getProductPrice parseBigInt
      currentTime wallClock store request in
  (Api.statusCode (snd result) = 200 \/ Api.statusCode (snd result) = 400) /\
  (getProductPrice (Api.add_productId request) = None ->
   fst result = store /\ Api.statusCode (snd result) = 400) /\
  (Api.statusCode (snd result) = 200 ->
   exists price expectedRevision,
     getProductPrice (Api.add_productId request) = Some price /\
     Api.expectedRevisionOf parseBigInt (Api.add_ifMatch request)
     = Ok expectedRevision /\
     fst result
     = fst (appendToStream store (Api.add_id request)
              [ ProductItemAddedToShoppingCart (Api.add_id request)
                  {| productId := Api.add_productId request;
                     productName := Api.add_productName request;
                     quantity := Api.add_quantity request;
                     unitPrice := price |}
                  currentTime ]
              (Some {| FileStore.expectedStreamVersion :=
                         expectedRevision |}))).
Proof.
  cbv zeta. unfold Api.addItem.
  destruct (Api.expectedRevisionOf parseBigInt (Api.add_ifMatch request))
    as [expectedRevision | error]; simpl.
  2: { split; [by right |]. split; [done | discriminate]. }
  destruct (getProductPrice (Api.add_productId request)) as [price |]; simpl.
  2: { split; [by right |]. split; [done | discriminate]. }
  unfold Api.handleCommand.
  destruct (readStream store (Api.add_id request)) as [readResult | error];
    simpl.
  2: { split; [by right |]. split; [done | discriminate]. }
  destruct (Decider.replay (Decider.initialState wallClock)
              (FileStore.r_event <$> FileStore.events readResult))
    as [state | error]; simpl.
  2: { split; [by right |]. split; [done | discriminate]. }
  unfold Decider.addProductItem.
  destruct (decide (status state <> Opened)); simpl.
  { split; [by right |]. split; [done | discriminate]. }
  destruct (appendToStream store (Api.add_id request) _ _)
    as [stored [appendResult | error]] eqn:Happend; simpl.
  - split; [by left |]. split; [done |]. intros _.
    exists price, expectedRevision. by rewrite Happend.
  - split; [by right |]. split; [done | discriminate].
Qed.

(** Removing an item through the API never asks for zero units: with a
    readable If-Match header, the command handled is
    RemoveProductItemFromShoppingCart for the product of the path, with the
    quantity of the body, or 1 when the body has no quantity or has 0. *)
Theorem removeItem_defaults_to_one_unit store request expectedRevision :
  Api.expectedRevisionOf parseBigInt (Api.rem_ifMatch request)
  = Ok expectedRevision ->
  exists units,
    units <> 0 /\
    (forall asked,
       Api.rem_quantity request = Some asked -> asked <> 0 -> units = asked) /\
    (Api.rem_quantity request = None \/ Api.rem_quantity request = Some 0 ->
     units = 1) /\
    let handled :=
      Api.handleCommand Store AppendResult readStream appendToStream
        nextExpectedStreamVersion currentTime wallClock
        store (Api.rem_id request)
        (RemoveProductItemFromShoppingCart (Api.rem_id request)
           {| pi_productId := Api.rem_productId request;
              pi_productName := ""; pi_quantity := units |})
        expectedRevision in
    Api.removeItem Store AppendResult readStream appendToStream
      nextExpectedStreamVersion parseBigInt currentTime wallClock
      store request
    = (fst handled,
       match snd handled with
       | Ok nextRevision =>
           {| Api.statusCode := 200; Api.location := None;
              Api.body :=
                Api.MessageBody "Product removed from cart" nextRevision |}
       | Throw error => Api.badRequest error
       end).
Proof.
  intros Hrevision. unfold Api.removeItem. rewrite Hrevision.
  exists (match Api.rem_quantity request with
          | Some asked => if asked =? 0 then 1 else asked
          | None => 1
          end).
  split; [| split; [| split]].
  - destruct (Api.rem_quantity request) as [asked |]; [| lia].
    destruct (Z.eqb_spec asked 0); lia.
  - intros asked -> Hasked. destruct (Z.eqb_spec asked 0); [lia | done].
  - intros [-> | ->]; reflexivity.
  - cbv zeta.
    destruct (Api.handleCommand Store AppendResult readStream appendToStream
                nextExpectedStreamVersion currentTime wallClock store
                (Api.rem_id request) _ expectedRevision)
      as [stored [nextRevision | error]]; reflexivity.
Qed.

(** Reading a cart through the API: a stream that cannot be read or holds
    no event is answered 404 "Cart not found"; any other stream is answered
    200 with the state replayed from its events, which is the state
    handleCommand decides the next command against, and with the version of
    the stream. *)
Theorem getCart_shows_replayed_state store cartId :
  match readStream store cartId with
  | Throw _ =>
      Api.getCart Store readStream wallClock store cartId = Api.notFound
  | Ok streamResult =>
      (FileStore.events streamResult = [] ->
       Api.getCart Store readStream wallClock store cartId = Api.notFound) /\
      (FileStore.events streamResult <> [] ->
       exists state,
         Decider.replay (Decider.initialState wallClock)
           (FileStore.r_event <$> FileStore.events streamResult) = Ok state /\
         Api.getCart Store readStream wallClock store cartId
         = {| Api.statusCode := 200; Api.location := None;
              Api.body :=
                Api.CartBody state
                  (FileStore.currentStreamVersion streamResult) |})
  end.
Proof.
  unfold Api.getCart.
  destruct (readStream store cartId) as [streamResult | error];
    [| reflexivity].
  destruct (replay_returns
              (FileStore.r_event <$> FileStore.events streamResult)
              (Decider.initialState wallClock)) as [state Hreplay].
  rewrite Hreplay. split.
  - intros ->. reflexivity.
  - intros Hevents. exists state. split; [reflexivity |].
    destruct (FileStore.events streamResult); [done | reflexivity].
Qed.

End Routes.

Lemma addItem_outcomes_witness :
  fst (Api.addItem SampleMemory Z sampleRead sampleAppend (fun next => next)
         Index.getProductPrice sampleParse 5 6 closedMemory
         (Api.mkAddItemRequest "cart-1" "product-999" "Unknown" 1 (Some "3")))
  = closedMemory /\
  Api.statusCode
    (snd (Api.addItem SampleMemory Z sampleRead sampleAppend
            (fun next => next) Index.getProductPrice sampleParse 5 6
            closedMemory
            (Api.mkAddItemRequest "cart-1" "product-999" "Unknown" 1
               (Some "3"))))
  = 400.
Proof.
  apply (proj1 (proj2
           (addItem_outcomes sampleRead sampleAppend (fun next => next)
              Index.getProductPrice sampleParse 5 6 closedMemory
              (Api.mkAddItemRequest "cart-1" "product-999" "Unknown" 1
                 (Some "3"))))).
  reflexivity.
Defined.

Lemma removeItem_defaults_to_one_unit_witness :
  exists units,
    units <> 0 /\
    Api.removeItem SampleMemory Z sampleRead sampleAppend (fun next => next)
      sampleParse 5 6 closedMemory
      (Api.mkRemoveItemRequest "cart-1" "productA" (Some 0) (Some "3"))
    = (fst (Api.handleCommand SampleMemory Z sampleRead sampleAppend
              (fun next => next) 5 6 closedMemory "cart-1"
              (RemoveProductItemFromShoppingCart "cart-1"
                 (mkProductItem "productA" "" units)) (Some 3)),
       match snd (Api.handleCommand SampleMemory Z sampleRead sampleAppend
                    (fun next => next) 5 6 closedMemory "cart-1"
                    (RemoveProductItemFromShoppingCart "cart-1"
                       (mkProductItem "productA" "" units)) (Some 3)) with
       | Ok nextRevision =>
           {| Api.statusCode := 200; Api.location := None;
              Api.body :=
                Api.MessageBody "Product removed from cart" nextRevision |}
       | Throw error => Api.badRequest error
       end).
Proof.
  destruct (removeItem_defaults_to_one_unit sampleRead sampleAppend
              (fun next => next) sampleParse 5 6 closedMemory
              (Api.mkRemoveItemRequest "cart-1" "productA" (Some 0)
                 (Some "3"))
              (Some 3) eq_refl) as (units & Hunits & _ & _ & Hhandled).
  exists units. split; [exact Hunits | exact Hhandled].
Defined.

Lemma getCart_shows_replayed_state_witness :
  Api.getCart SampleMemory sampleRead 6 closedMemory "cart-1"
  = {| Api.statusCode := 200; Api.location := None;
       Api.body := Api.CartBody confirmedCart 3 |}.
Proof.
  pose proof (getCart_shows_replayed_state sampleRead 6 closedMemory "cart-1")
    as Hshown.
  simpl in Hshown. destruct Hshown as (_ & Hfull).
  destruct Hfull as (state & Hreplay & Hanswer); [done |].
  injection Hreplay as <-. exact Hanswer.
Defined.

(** * Listing the carts and loading them at start-up *)

Lemma endsWith_unfold file suffix :
  Listing.endsWith file suffix
  = if String.eqb file suffix then true
    else match file with
         | EmptyString => false
         | String _ rest => Listing.endsWith rest suffix
         end.
Proof. destruct file; reflexivity. Qed.

Lemma endsWith_suffix file suffix :
  Listing.endsWith file suffix = true <->
  exists front, file = front +:+ suffix.
Proof.
  split.
  - induction file as [| c rest IH]; rewrite endsWith_unfold.
    + destruct (String.eqb_spec "" suffix) as [<- | _]; [| discriminate].
      intros _. by exists "".
    + destruct (String.eqb_spec (String c rest) suffix) as [<- | _].
      * intros _. by exists "".
      * intros Hrest. destruct (IH Hrest) as [front ->].
        by exists (String c front).
  - intros [front ->]. induction front as [| c front IH].
    + rewrite endsWith_unfold. simpl. by rewrite String.eqb_refl.
    + rewrite endsWith_unfold.
      destruct (String.eqb_spec (String c front +:+ suffix) suffix);
        [done | exact IH].
Qed.

Section CartListing.
Context {FileSystem : Type}.
Variable readdir : FileSystem -> string -> Result (list string).
Variable readJson :
  FileSystem -> string -> Result (FileStore.JsonData ShoppingCartEvent).
Variable timeOf : string -> option Z.
Variable dataDirectory : string.

Lemma listFile_fold files names carts warned :
  fold_left (Listing.listFile FileSystem readJson dataDirectory files)
    names (carts, warned)
  = (carts ++ omap (cartOfFile readJson dataDirectory files) names,
     warned ++ omap (warningOfFile readJson dataDirectory files) names).
Proof.
  revert carts warned.
  induction names as [| file rest IH]; intros carts warned; simpl.
  - by rewrite !app_nil_r.
  - unfold Listing.listFile at 2, cartOfFile at 1, warningOfFile at 1.
    destruct (Listing.endsWith file ".json"); [| apply IH].
    destruct (readJson files (Listing.joinPath dataDirectory file))
      as [jsonData | error]; simpl; rewrite IH, <- app_assoc; reflexivity.
Qed.

Lemma insertNewestFirst_perm cart sorted :
  Listing.insertNewestFirst timeOf cart sorted ≡ₚ cart :: sorted.
Proof.
  induction sorted as [| other rest IH]; simpl; [done |].
  destruct (0 <? Listing.newestFirst timeOf cart other); [| done].
  rewrite IH. apply Permutation_swap.
Qed.

Lemma sortNewestFirst_perm carts :
  Listing.sortNewestFirst timeOf carts ≡ₚ carts.
Proof.
  induction carts as [| cart rest IH]; simpl; [done |].
  rewrite insertNewestFirst_perm. by rewrite IH.
Qed.

Lemma insertNewestFirst_sorted cart sorted :
  hasTime timeOf cart -> Forall (hasTime timeOf) sorted ->
  StronglySorted (notOlder timeOf) sorted ->
  StronglySorted (notOlder timeOf)
    (Listing.insertNewestFirst timeOf cart sorted).
Proof.
  intros [stamp Hcart] Htimes Hsorted.
  induction Hsorted as [| other rest Hrest IH Hother]; simpl.
  - repeat constructor.
  - apply Forall_cons in Htimes as [[time Hfirst] Htimes].
    unfold Listing.newestFirst. rewrite Hfirst, Hcart.
    destruct (Z.ltb_spec 0 (time - stamp)) as [Hlt | Hge].
    + constructor; [by apply IH |].
      rewrite insertNewestFirst_perm. constructor; [| exact Hother].
      unfold notOlder. rewrite Hfirst, Hcart. lia.
    + constructor; [by constructor |].
      constructor; [unfold notOlder; rewrite Hfirst, Hcart; lia |].
      apply Forall_forall. intros later Hlater.
      pose proof (proj1 (Forall_forall _ _) Hother later Hlater) as Hle.
      unfold notOlder in *. rewrite Hfirst in Hle. rewrite Hcart.
      destruct (timeOf (FileStore.cs_lastUpdated later)); [lia | done].
Qed.

Lemma sortNewestFirst_sorted carts :
  Forall (hasTime timeOf) carts ->
  StronglySorted (notOlder timeOf) (Listing.sortNewestFirst timeOf carts).
Proof.
  induction 1 as [| cart rest Hcart Hrest IH]; simpl; [constructor |].
  apply insertNewestFirst_sorted; [done | | done].
  by rewrite sortNewestFirst_perm.
Qed.

Lemma insertNewestFirst_stable stamp cart sorted :
  filter (fun listed => timeOf (FileStore.cs_lastUpdated listed) = Some stamp)
    (Listing.insertNewestFirst timeOf cart sorted)
  = filter (fun listed => timeOf (FileStore.cs_lastUpdated listed) = Some stamp)
      (cart :: sorted).
Proof.
  induction sorted as [| other rest IH]; simpl; [done |].
  destruct (Z.ltb_spec 0 (Listing.newestFirst timeOf cart other))
    as [Hlt | _]; [| done].
  rewrite (filter_cons _ other), IH, !filter_cons.
  unfold Listing.newestFirst in Hlt.
  repeat case_decide; try done.
  destruct (timeOf (FileStore.cs_lastUpdated other)),
           (timeOf (FileStore.cs_lastUpdated cart)); simplify_eq; lia.
Qed.

Lemma sortNewestFirst_stable stamp carts :
  filter (fun listed => timeOf (FileStore.cs_lastUpdated listed) = Some stamp)
    (Listing.sortNewestFirst timeOf carts)
  = filter (fun listed => timeOf (FileStore.cs_lastUpdated listed) = Some stamp)
      carts.
Proof.
  induction carts as [| cart rest IH]; simpl; [done |].
  rewrite insertNewestFirst_stable, !filter_cons, IH. done.
Qed.

(** getAllCarts never fails.  When the directory cannot be read it returns
    no cart and warns once.  Otherwise it returns exactly one cart for each
    listed name that ends in ".json" and whose stream document can be read,
    rebuilt from that document's events; names without that ending are
    ignored, and each ".json" file that cannot be read costs one warning and
    nothing else.  When the stamp of every such cart is a date, the carts
    come from the most to the least recently updated, carts with the same
    time staying in directory order; a stamp that is not a date makes the
    comparator return NaN, and nothing is said of the order then. *)
Theorem getAllCarts_lists_newest_first files console :
  match readdir files dataDirectory with
  | Throw error =>
      Listing.getAllCarts FileSystem readdir readJson timeOf dataDirectory
        files console
      = ([],
         console ++
           [ {| FileStore.w_message := "Failed to get all carts:";
                FileStore.w_error := error |} ])
  | Ok names =>
      let listed :=
        Listing.getAllCarts FileSystem readdir readJson timeOf dataDirectory
          files console in
      fst listed ≡ₚ omap (cartOfFile readJson dataDirectory files) names /\
      snd listed
      = console ++ omap (warningOfFile readJson dataDirectory files) names /\
      (Forall (hasTime timeOf)
         (omap (cartOfFile readJson dataDirectory files) names) ->
       StronglySorted (notOlder timeOf) (fst listed) /\
       forall stamp,
         filter
           (fun cart => timeOf (FileStore.cs_lastUpdated cart) = Some stamp)
           (fst listed)
         = filter
             (fun cart => timeOf (FileStore.cs_lastUpdated cart) = Some stamp)
             (omap (cartOfFile readJson dataDirectory files) names))
  end.
Proof.
  unfold Listing.getAllCarts.
  destruct (readdir files dataDirectory) as [names | error]; [| reflexivity].
  rewrite listFile_fold. simpl. split; [| split; [| split]].
  - apply sortNewestFirst_perm.
  - reflexivity.
  - by apply sortNewestFirst_sorted.
  - intros stamp. apply sortNewestFirst_stable.
Qed.

End CartListing.

Lemma getAllCarts_lists_newest_first_witness :
  StronglySorted (notOlder (fun _ => Some 0))
    (fst (Listing.getAllCarts SampleDisk sampleReaddir sampleReadJson
            (fun _ => Some 0) "./data/events"
            (FileStore.disk restartWorld) [])).
Proof.
  pose proof (getAllCarts_lists_newest_first sampleReaddir sampleReadJson
                (fun _ => Some 0) "./data/events"
                (FileStore.disk restartWorld) []) as Hlisted.
  simpl in Hlisted. destruct Hlisted as (_ & _ & Hsorted).
  apply Hsorted. repeat constructor. by exists 0.
Defined.

Section SaveThenList.
Context {MemStore AppendResult FileSystem : Type}.
Variable originalAppendToStream :
  MemStore -> string -> list ShoppingCartEvent ->
  option FileStore.AppendOptions -> MemStore * Result AppendResult.
Variable readStream :
  MemStore -> string -> Result (FileStore.ReadStreamResult ShoppingCartEvent).
Variable writeFile :
  FileSystem -> string -> FileStore.JsonData ShoppingCartEvent ->
  FileSystem * Result unit.
Variable readdir : FileSystem -> string -> Result (list string).
Variable readJson :
  FileSystem -> string -> Result (FileStore.JsonData ShoppingCartEvent).
Variable timeOf : string -> option Z.
Variable isoNow : string -> string.
Variable dataDirectory : string.

(** From the append to the listing.  On a file system that reads back what
    it wrote: when the in-memory append succeeded, the stream was read back
    and the file was written, the append returns the in-memory result with
    no warning, and as soon as the directory lists "<streamId>.json" the
    listing holds the cart rebuilt from the whole stream as read back from
    memory, stamped with the time of the append. *)
Theorem saved_stream_is_listed
    world streamId newEvents options lastUpdated
    memory result streamResult written names console :
  readsBackWrites writeFile readJson ->
  originalAppendToStream (FileStore.mem world) streamId newEvents options
  = (memory, Ok result) ->
  readStream memory streamId = Ok streamResult ->
  writeFile (FileStore.disk world)
    (FileStore.filePathOf dataDirectory streamId)
    {| FileStore.j_streamId := streamId;
       FileStore.j_events := FileStore.events streamResult;
       FileStore.j_currentStreamVersion :=
         FileStore.currentStreamVersion streamResult;
       FileStore.j_lastUpdated := lastUpdated |}
  = (written, Ok tt) ->
  readdir written dataDirectory = Ok names ->
  streamId +:+ ".json" ∈ names ->
  FileStore.appendToStream MemStore AppendResult originalAppendToStream
    readStream FileSystem writeFile dataDirectory
    world streamId newEvents options lastUpdated
  = (FileStore.mkWorld memory written (FileStore.console world), Ok result) /\
  FileStore.rebuildCart streamId lastUpdated
    (FileStore.r_event <$> FileStore.events streamResult)
  ∈ fst (Listing.getAllCarts FileSystem readdir readJson timeOf
           dataDirectory written console).
Proof.
  intros Hback Happend Hread Hwrite Hnames Hlisted. split.
  - unfold FileStore.appendToStream, FileStore.saveToFile.
    by rewrite Happend, Hread, Hwrite.
  - pose proof (getAllCarts_lists_newest_first readdir readJson timeOf
                  dataDirectory written console) as Hlisting.
    rewrite Hnames in Hlisting. destruct Hlisting as (Hperm & _).
    rewrite Hperm. apply list_elem_of_omap.
    exists (streamId +:+ ".json"). split; [exact Hlisted |].
    unfold cartOfFile.
    rewrite (proj2 (endsWith_suffix (streamId +:+ ".json") ".json"))
      by by exists streamId.
    change (Listing.joinPath dataDirectory (streamId +:+ ".json"))
      with (FileStore.filePathOf dataDirectory streamId).
    by rewrite (Hback _ _ _ _ Hwrite).
Qed.

(** Start-up.  loadExistingData never fails: a directory that cannot be
    read leaves everything as it was, only the names ending in ".json" are
    looked at, a file that cannot be read costs one warning, and a file
    without events is skipped.  A file with events is appended to the
    in-memory store without an expected version and, because the append is
    the file-backed one, written back: the file then holds the stream as
    read back from memory, stamped with the time of the load and no longer
    with the time it was last updated. *)
Theorem loadExistingData_reloads_and_restamps world :
  (forall error,
     readdir (FileStore.disk world) dataDirectory = Throw error ->
     Listing.loadExistingData FileSystem readdir readJson dataDirectory
       MemStore AppendResult originalAppendToStream readStream writeFile
       isoNow world
     = world) /\
  (forall names,
     readdir (FileStore.disk world) dataDirectory = Ok names ->
     Listing.loadExistingData FileSystem readdir readJson dataDirectory
       MemStore AppendResult originalAppendToStream readStream writeFile
       isoNow world
     = fold_left
         (Listing.loadFile FileSystem readJson dataDirectory
            MemStore AppendResult originalAppendToStream readStream
            writeFile isoNow)
         (filter (fun name => Listing.endsWith name ".json" = true) names)
         world) /\
  (forall file error,
     Listing.endsWith file ".json" = true ->
     readJson (FileStore.disk world) (Listing.joinPath dataDirectory file)
     = Throw error ->
     Listing.loadFile FileSystem readJson dataDirectory
       MemStore AppendResult originalAppendToStream readStream writeFile
       isoNow world file
     = FileStore.mkWorld (FileStore.mem world) (FileStore.disk world)
         (FileStore.console world ++
            [ {| FileStore.w_message := "Failed to load " +:+ file +:+ ":";
                 FileStore.w_error := error |} ])) /\
  (forall file jsonData,
     Listing.endsWith file ".json" = true ->
     readJson (FileStore.disk world) (Listing.joinPath dataDirectory file)
     = Ok jsonData ->
     (FileStore.j_events jsonData = [] ->
      Listing.loadFile FileSystem readJson dataDirectory
        MemStore AppendResult originalAppendToStream readStream writeFile
        isoNow world file
      = world) /\
     (forall memory result streamResult written,
        FileStore.j_events jsonData <> [] ->
        originalAppendToStream (FileStore.mem world)
          (FileStore.j_streamId jsonData)
          (FileStore.r_event <$> FileStore.j_events jsonData) None
        = (memory, Ok result) ->
        readStream memory (FileStore.j_streamId jsonData) = Ok streamResult ->
        writeFile (FileStore.disk world)
          (FileStore.filePathOf dataDirectory (FileStore.j_streamId jsonData))
          {| FileStore.j_streamId := FileStore.j_streamId jsonData;
             FileStore.j_events := FileStore.events streamResult;
             FileStore.j_currentStreamVersion :=
               FileStore.currentStreamVersion streamResult;
             FileStore.j_lastUpdated := isoNow file |}
        = (written, Ok tt) ->
        Listing.loadFile FileSystem readJson dataDirectory
          MemStore AppendResult originalAppendToStream readStream writeFile
          isoNow world file
        = FileStore.mkWorld memory written (FileStore.console world))).
Proof.
  split; [| split; [| split]].
  - intros error Hdir. unfold Listing.loadExistingData. by rewrite Hdir.
  - intros names Hdir. unfold Listing.loadExistingData. rewrite Hdir.
    clear Hdir. revert world.
    induction names as [| name rest IH]; intros world; [done |].
    rewrite filter_cons. simpl.
    destruct (decide (Listing.endsWith name ".json" = true)) as [Hjson | Hother].
    + simpl. apply IH.
    + rewrite <- IH. f_equal. unfold Listing.loadFile.
      by destruct (Listing.endsWith name ".json").
  - intros file error Hjson Hfile. unfold Listing.loadFile.
    by rewrite Hjson, Hfile.
  - intros file jsonData Hjson Hfile. split.
    + intros Hempty. unfold Listing.loadFile.
      by rewrite Hjson, Hfile, Hempty.
    + intros memory result streamResult written Hevents Happend Hread Hwrite.
      assert (Hsome :
        (0 <? length (FileStore.r_event <$> FileStore.j_events jsonData))%nat
        = true)
        by (destruct (FileStore.j_events jsonData); [done | reflexivity]).
      unfold Listing.loadFile. rewrite Hjson, Hfile. cbv zeta.
      rewrite Hsome.
      unfold FileStore.appendToStream, FileStore.saveToFile.
      by rewrite Happend, Hread, Hwrite.
Qed.

End SaveThenList.

Lemma sample_disk_reads_back : readsBackWrites keepingDisk sampleReadJson.
Proof.
  intros files filePath content written Hwrite.
  unfold keepingDisk in Hwrite. injection Hwrite as <-.
  unfold sampleReadJson. simpl. by rewrite bool_decide_eq_true_2.
Qed.

Lemma saved_stream_is_listed_witness :
  FileStore.rebuildCart "cart-1" "2025-01-01T00:00:00.000Z"
    [ ShoppingCartOpened "cart-1" "customer-9" 0 ]
  ∈ fst (Listing.getAllCarts SampleDisk sampleReaddir sampleReadJson
           (fun _ => Some 0) "./data/events"
           [ ("./data/events/cart-1.json",
              {| FileStore.j_streamId := "cart-1";
                 FileStore.j_events :=
                   [ FileStore.mkReadEvent
                       (ShoppingCartOpened "cart-1" "customer-9" 0)
                       {| FileStore.streamPosition := 1;
                          FileStore.globalPosition := None |} ];
                 FileStore.j_currentStreamVersion := 1;
                 FileStore.j_lastUpdated := "2025-01-01T00:00:00.000Z" |}) ]
           []).
Proof.
  eapply (proj2 (saved_stream_is_listed sampleAppend sampleRead keepingDisk
                   sampleReaddir sampleReadJson (fun _ => Some 0) "./data/events"
                   (FileStore.mkWorld [] [] []) "cart-1"
                   [ ShoppingCartOpened "cart-1" "customer-9" 0 ] None
                   "2025-01-01T00:00:00.000Z" _ _ _ _ _ []
                   sample_disk_reads_back eq_refl eq_refl eq_refl eq_refl _)).
  Unshelve. apply list_elem_of_here.
Defined.

Lemma loadExistingData_reloads_and_restamps_witness :
  Listing.loadFile SampleDisk sampleReadJson "./data/events"
    SampleMemory Z sampleAppend sampleRead keepingDisk
    (fun _ => "2025-06-01T00:00:00.000Z") restartWorld "cart-1.json"
  = FileStore.mkWorld
      [ ("cart-1", [ ShoppingCartOpened "cart-1" "customer-9" 0 ]) ]
      (("./data/events/cart-1.json",
        {| FileStore.j_streamId := "cart-1";
           FileStore.j_events :=
             [ FileStore.mkReadEvent
                 (ShoppingCartOpened "cart-1" "customer-9" 0)
                 {| FileStore.streamPosition := 1;
                    FileStore.globalPosition := None |} ];
           FileStore.j_currentStreamVersion := 1;
           FileStore.j_lastUpdated := "2025-06-01T00:00:00.000Z" |})
         :: FileStore.disk restartWorld)
      [].
Proof.
  destruct (loadExistingData_reloads_and_restamps sampleAppend sampleRead
              keepingDisk sampleReaddir sampleReadJson
              (fun _ => "2025-06-01T00:00:00.000Z") "./data/events"
              restartWorld) as (_ & _ & _ & Hfile).
  destruct (Hfile "cart-1.json" _ eq_refl eq_refl) as (_ & Hreload).
  eapply Hreload; [done | reflexivity | reflexivity | reflexivity].
Defined.

(** * The total of a cart in the customer projection *)

Lemma entry_found_after_update (entries : list Customer.CartEntry)
    cartId i entry k old new :
  list_find (fun cart => Customer.e_id cart = cartId) entries
  = Some (i, entry) ->
  entries !! k = Some old ->
  Customer.e_id new = Customer.e_id old ->
  list_find (fun cart => Customer.e_id cart = cartId) (<[k := new]> entries)
  = Some (i, if decide (k = i) then new else entry).
Proof.
  intros (Hlook & Hid & Hfirst)%list_find_Some Hold Hsame.
  apply list_find_Some. split; [| split].
  - destruct (decide (k = i)) as [-> | Hne].
    + apply list_lookup_insert_eq. by eapply lookup_lt_Some.
    + by rewrite list_lookup_insert_ne.
  - destruct (decide (k = i)) as [-> | Hne]; [| done].
    rewrite Hsame. by simplify_eq.
  - intros j other Hother Hlt.
    destruct (decide (k = j)) as [-> | Hne].
    + rewrite list_lookup_insert_eq in Hother by by eapply lookup_lt_Some.
      injection Hother as <-. rewrite Hsame. by eapply Hfirst.
    + rewrite list_lookup_insert_ne in Hother by done. by eapply Hfirst.
Qed.

Lemma customer_total_step document event streamId cartId i entry :
  list_find (fun cart => Customer.e_id cart = cartId)
    (Customer.carts document) = Some (i, entry) ->
  exists next after,
    Customer.evolveCustomerShoppingSummary (Some document) event streamId
    = Ok (Some next) /\
    list_find (fun cart => Customer.e_id cart = cartId)
      (Customer.carts next) = Some (i, after) /\
    Customer.e_totalAmount after
    = totalAfter cartId (Customer.e_totalAmount entry)
        [ (event, streamId) ].
Proof.
  intros Hfind.
  destruct event as [opened customer t | added p t | removed p t
                    | confirmed t | cancelled t | type]; simpl.
  - eexists _, entry. split; [reflexivity |]. simpl.
    split; [by apply list_find_app_l | reflexivity].
  - destruct (list_find (fun cart => Customer.e_id cart = added)
                (Customer.carts document)) as [[k old] |] eqn:Hadded.
    + destruct (findIndex_found _ _ _ _ Hadded) as (-> & Hold & Hk).
      destruct (Z.ltb_spec (Z.of_nat k) 0); [lia |].
      rewrite (at_found _ _ _ Hold). simpl. unfold setAt. rewrite Nat2Z.id.
      eexists _, _. split; [reflexivity |]. simpl.
      split; [by eapply entry_found_after_update |].
      pose proof Hfind as (Hlook & Hid & _)%list_find_Some.
      destruct (decide (added = cartId)) as [-> | Hother].
      * rewrite Hadded in Hfind. injection Hfind as -> ->.
        by rewrite decide_True by done.
      * destruct (decide (k = i)) as [-> | _]; [| done].
        rewrite Hold in Hlook. injection Hlook as ->. congruence.
    + destruct (findIndex_missing _ _ Hadded) as (-> & Hnone). simpl.
      eexists _, entry. split; [reflexivity |]. split; [exact Hfind |].
      destruct (decide (added = cartId)) as [-> | _]; [| done].
      rewrite Hadded in Hfind. discriminate.
  - eexists _, entry. split; [reflexivity |]. split; [exact Hfind | done].
  - destruct (list_find (fun cart => Customer.e_id cart = confirmed)
                (Customer.carts document)) as [[k old] |] eqn:Hother.
    + destruct (findIndex_found _ _ _ _ Hother) as (-> & Hold & Hk).
      destruct (Z.ltb_spec (Z.of_nat k) 0); [lia |].
      rewrite (at_found _ _ _ Hold). simpl. unfold setAt. rewrite Nat2Z.id.
      eexists _, _. split; [reflexivity |]. simpl.
      split; [by eapply entry_found_after_update |].
      pose proof Hfind as (Hlook & _)%list_find_Some.
      destruct (decide (k = i)) as [-> | Hne]; by simplify_eq.
    + destruct (findIndex_missing _ _ Hother) as (-> & _). simpl.
      eexists _, entry. split; [reflexivity |]. split; [exact Hfind | done].
  - destruct (list_find (fun cart => Customer.e_id cart = cancelled)
                (Customer.carts document)) as [[k old] |] eqn:Hother.
    + destruct (findIndex_found _ _ _ _ Hother) as (-> & Hold & Hk).
      destruct (Z.ltb_spec (Z.of_nat k) 0); [lia |].
      rewrite (at_found _ _ _ Hold). simpl. unfold setAt. rewrite Nat2Z.id.
      eexists _, _. split; [reflexivity |]. simpl.
      split; [by eapply entry_found_after_update |].
      pose proof Hfind as (Hlook & _)%list_find_Some.
      destruct (decide (k = i)) as [-> | Hne]; by simplify_eq.
    + destruct (findIndex_missing _ _ Hother) as (-> & _). simpl.
      eexists _, entry. split; [reflexivity |]. split; [exact Hfind | done].
  - eexists _, entry. split; [reflexivity |]. split; [exact Hfind | done].
Qed.

Lemma totalAfter_cons cartId total event streamId feed :
  totalAfter cartId total ((event, streamId) :: feed)
  = totalAfter cartId (totalAfter cartId total [ (event, streamId) ]) feed.
Proof. destruct event; simpl; try reflexivity. by case_decide. Qed.

(** In the customer projection the total of a tracked cart only ever
    moves by what is added: after folding any feed, the first entry with a
    given cart id is still at the same place, and its totalAmount is obtained
    from the one it had by adding, in the order of the feed and with the
    program's own binary64 additions, unit price times quantity of each
    ProductItemAddedToShoppingCart event of the feed for that cart.
    ProductItemRemovedFromShoppingCart events, and every other event, leave
    that total as it is. *)
Theorem customer_cart_total_counts_additions_only
    feed document cartId i entry :
  Customer.carts document !! i = Some entry ->
  Customer.e_id entry = cartId ->
  (forall j other,
     Customer.carts document !! j = Some other -> (j < i)%nat ->
     Customer.e_id other <> cartId) ->
  exists final after,
    projectCustomer (Some document) feed = Ok (Some final) /\
    Customer.carts final !! i = Some after /\
    Customer.e_id after = cartId /\
    Customer.e_totalAmount after
    = totalAfter cartId (Customer.e_totalAmount entry) feed.
Proof.
  intros Hlook Hid Hfirst.
  assert (Hfind :
    list_find (fun cart => Customer.e_id cart = cartId)
      (Customer.carts document) = Some (i, entry))
    by by apply list_find_first.
  clear Hlook Hid Hfirst.
  assert (Hfold :
    exists final after,
      projectCustomer (Some document) feed = Ok (Some final) /\
      list_find (fun cart => Customer.e_id cart = cartId)
        (Customer.carts final) = Some (i, after) /\
      Customer.e_totalAmount after
      = totalAfter cartId (Customer.e_totalAmount entry) feed).
  { revert document entry Hfind.
    induction feed as [| [event streamId] rest IH]; intros document entry Hfind.
    - exists document, entry. split; [reflexivity |].
      split; [exact Hfind | reflexivity].
    - destruct (customer_total_step document event streamId cartId i entry
                  Hfind) as (next & middle & Hstep & Hmiddle & Hamount).
      destruct (IH next middle Hmiddle)
        as (final & after & Hrest & Hafter & Htotal).
      exists final, after. cbn [projectCustomer]. rewrite Hstep. cbn [bind].
      split; [exact Hrest |]. split; [exact Hafter |].
      by rewrite totalAfter_cons, Htotal, Hamount. }
  destruct Hfold as (final & after & Hproject & Hafter & Htotal).
  apply list_find_Some in Hafter as (Hlook & Hid & _).
  exists final, after. auto.
Qed.

Lemma customer_cart_total_counts_additions_only_witness :
  exists final after,
    projectCustomer (Some sampleCustomer)
      [ (ProductItemAddedToShoppingCart "cart-1" (productA 1 10) 150, "cart-1");
        (ProductItemRemovedFromShoppingCart "cart-1"
           (mkProductItem "productA" "Product A" 1) 160, "cart-1") ]
    = Ok (Some final) /\
    Customer.carts final !! 0%nat = Some after /\
    Customer.e_id after = "cart-1" /\
    Customer.e_totalAmount after
    = totalAfter "cart-1" (numberOfZ 20)
        [ (ProductItemAddedToShoppingCart "cart-1" (productA 1 10) 150,
           "cart-1");
          (ProductItemRemovedFromShoppingCart "cart-1"
             (mkProductItem "productA" "Product A" 1) 160, "cart-1") ].
Proof.
  apply (customer_cart_total_counts_additions_only _ sampleCustomer "cart-1"
           0%nat _ eq_refl eq_refl).
  intros j other _ Hlt. lia.
Defined.

(** * Creating a cart *)

Section CreatingACart.
Context {Store AppendResult : Type}.
Variable readStream :
  Store -> string -> Result (FileStore.ReadStreamResult ShoppingCartEvent).
Variable appendToStream :
  Store -> string -> list ShoppingCartEvent ->
  option FileStore.AppendOptions -> Store * Result AppendResult.
Variable nextExpectedStreamVersion : AppendResult -> Z.
Variable currentTime wallClock : Date.

(** Creating a cart through the API, when the stream of the fresh id holds
    no event yet: the open command is always accepted, so the one thing that
    happens to the store is the append, without expected revision, of one
    ShoppingCartOpened event for the fresh cart id, at the time of
    getCurrentTime, for the customer of the request, or for a fresh customer
    id when the request names none or an empty one.  The answer is 201 with
    the Location of the cart when the append succeeds, 400 when it fails. *)
Theorem createCart_opens_fresh_stream
    store freshCartId freshCustomerId requested readResult :
  readStream store freshCartId = Ok readResult ->
  FileStore.events readResult = [] ->
  let customer :=
    match requested with
    | Some given => if decide (given = "") then freshCustomerId else given
    | None => freshCustomerId
    end in
  let appended :=
    appendToStream store freshCartId
      [ ShoppingCartOpened freshCartId customer currentTime ]
      (Some {| FileStore.expectedStreamVersion := None |}) in
  Api.createCart Store AppendResult readStream appendToStream
    nextExpectedStreamVersion currentTime wallClock
    store freshCartId freshCustomerId requested
  = (fst appended,
     match snd appended with
     | Ok appendResult =>
         {| Api.statusCode := 201;
            Api.location := Some ("/carts/" +:+ freshCartId);
            Api.body :=
              Api.CreatedBody freshCartId customer "Opened"
                (nextExpectedStreamVersion appendResult) |}
     | Throw error => Api.badRequest error
     end).
Proof.
  intros Hread Hempty customer appended. subst customer appended.
  unfold Api.createCart, Api.handleCommand. rewrite Hread, Hempty. simpl.
  destruct (appendToStream store freshCartId _ _)
    as [stored [appendResult | error]]; reflexivity.
Qed.

End CreatingACart.

Lemma createCart_opens_fresh_stream_witness :
  Api.createCart SampleMemory Z sampleRead sampleAppend (fun next => next)
    5 6 closedMemory "cart-2" "customer-3" None
  = (("cart-2", [ ShoppingCartOpened "cart-2" "customer-3" 5 ])
       :: closedMemory,
     {| Api.statusCode := 201; Api.location := Some "/carts/cart-2";
        Api.body := Api.CreatedBody "cart-2" "customer-3" "Opened" 1 |}).
Proof.
  exact (createCart_opens_fresh_stream sampleRead sampleAppend
           (fun next => next) 5 6 closedMemory "cart-2" "customer-3" None
           _ eq_refl eq_refl).
Defined.
